(** * Hangar CI/CD extension: script dispatcher and run-command gate

    A shallow embedding of the two observed variants of [HangarScripts]
    (the TypeScript one built on [execSync], and the compiled one built on
    a promisified [exec]) and of the [hangar-cicd.runScripts] command
    handler, together with the properties of the dispatcher, of the
    validation gate and of the selection model. *)

From Stdlib Require Import String Ascii List Bool Arith.
Import ListNotations.
Local Open Scope string_scope.

(** ** JavaScript values that reach the dispatcher *)

(** The handler passes around values typed [string | undefined]; the cast
    [as string] does nothing at run time, so [undefined] does flow into the
    dispatcher. *)
Inductive jsval : Type :=
| JUndefined
| JString (s : string).

(** Interpolation of a value in a template literal. *)
Definition template (v : jsval) : string :=
  match v with
  | JUndefined => "undefined"
  | JString s => s
  end.

(** Truthiness as tested by [if (v)]. *)
Definition truthy (v : jsval) : bool :=
  match v with
  | JUndefined => false
  | JString s => negb (s =? "")
  end.

(** Strict equality [===] between a value and a string literal, as used by
    the cases of a [switch]. *)
Definition strict_eq (v : jsval) (lit : string) : bool :=
  match v with
  | JUndefined => false
  | JString s => s =? lit
  end.

(** Values that can be thrown or be the reason of a rejected promise: an
    [Error] object, or some other value, kept through its string
    conversion. An [Error] object carries the [name] its string conversion
    shows (["Error"] for a plain [Error]; the name followed by the code in
    brackets for the errors the runtime raises with a code, such as the
    [RangeError] of an output over [maxBuffer]) and its [message]. *)
Inductive jsexn : Type :=
| ErrorObject (name message : string)
| NonError (text : string).

(** [Error.prototype.toString]. *)
Definition Error_toString (name message : string) : string :=
  if name =? "" then message
  else if message =? "" then name
  else name ++ ": " ++ message.

(** Interpolation of a caught value in a template literal. *)
Definition template_exn (e : jsexn) : string :=
  match e with
  | ErrorObject n m => Error_toString n m
  | NonError t => t
  end.

(** The text the failing process reported. *)
Definition raw_text (e : jsexn) : string :=
  match e with
  | ErrorObject _ m => m
  | NonError t => t
  end.

(** [new Error(message)]. *)
Definition new_Error (message : string) : jsexn := ErrorObject "Error" message.

(** ** Observable effects *)

(** What [console.error] is given: a rendered string, or the caught value
    itself. *)
Inductive logged : Type :=
| LogText (text : string)
| LogValue (e : jsexn).

(** Calls into the host (the [vscode] API, [child_process], the console)
    in the order they are made. *)
Inductive event : Type :=
| ShowErrorMessage (message : string)
| ShowInformationMessage (message : string)
| ShowInputBox (prompt : string)
| CreateWebviewPanel (viewType title : string)
| SetWebviewHtml (html : string)
| DisposePanel
| Exec (command : string)
| ConsoleInfo (text : string)
| ConsoleError (payload : logged).

(** How a call ends: it returns, or it throws (rejects). *)
Inductive outcome (A : Type) : Type :=
| Returned (a : A)
| Thrown (e : jsexn).
Arguments Returned {A} a.
Arguments Thrown {A} e.

(** A computation is the trace of its host calls and its outcome. *)
Definition Eff (A : Type) : Type := (list event * outcome A)%type.

Definition ret {A} (a : A) : Eff A := ([], Returned a).

Definition bind {A B} (m : Eff A) (k : A -> Eff B) : Eff B :=
  match m with
  | (t, Returned a) => let (t', r) := k a in ((t ++ t')%list, r)
  | (t, Thrown e) => (t, Thrown e)
  end.

Definition throw {A} (e : jsexn) : Eff A := ([], Thrown e).

Definition try_catch {A} (body : Eff A) (handler : jsexn -> Eff A) : Eff A :=
  match body with
  | (t, Returned a) => (t, Returned a)
  | (t, Thrown e) => let (t', r) := handler e in ((t ++ t')%list, r)
  end.

Definition emit (ev : event) : Eff unit := ([ev], Returned tt).

Definition trace {A} (m : Eff A) : list event := fst m.

Declare Scope eff_scope.
Delimit Scope eff_scope with eff.
Notation "x <- m ;; k" := (bind m (fun x => k))
  (at level 61, m at next level, right associativity) : eff_scope.
Notation "m ;; k" := (bind m (fun _ => k))
  (at level 61, right associativity) : eff_scope.
Notation "'try' body 'catch' handler" := (try_catch body handler)
  (at level 62, body at level 61, handler at level 61) : eff_scope.
Local Open Scope eff_scope.

(** ** The host environment *)

(** How a spawned shell command ends: exit status 0 with its captured
    standard output, or a failure (non-zero exit status, or the command
    could not be spawned) with the error the runtime raises. *)
Inductive exec_result : Type :=
| Exited (stdout : string)
| Failed (error : jsexn).

(** The collaborators the dispatcher relies on: the shell behind
    [child_process], [path.resolve], [vscode.workspace.asRelativePath] and
    the directory of the running module. *)
Class Host : Type := {
  run_shell : string -> exec_result;
  path_resolve : string -> string -> string;
  asRelativePath : string -> bool -> string;
  __dirname : string
}.

Definition LF : string := String (ascii_of_nat 10) EmptyString.

Section HostCalls.
Context {host : Host}.

(** [execSync(command)] and the promisified [exec(command)]: the command
    is handed to the shell; the call returns its standard output or
    throws. *)
Definition exec (command : string) : Eff string :=
  emit (Exec command) ;;
  match run_shell command with
  | Exited stdout => ret stdout
  | Failed error => throw error
  end.

Definition showErrorMessage (message : string) : Eff unit :=
  emit (ShowErrorMessage message).

Definition showInformationMessage (message : string) : Eff unit :=
  emit (ShowInformationMessage message).

Definition console_info (text : string) : Eff unit :=
  emit (ConsoleInfo text).

Definition console_error (payload : logged) : Eff unit :=
  emit (ConsoleError payload).
End HostCalls.

(** ** The dispatcher, TypeScript variant (synchronous [execSync]) *)

Module HangarScriptsTs.
Section WithHost.
Context {host : Host}.

(** [executeScript(scriptName, scriptPath, scriptAttributes)]: runs the
    script through the shell; a failure is logged and shown, and is not
    propagated. *)
Definition executeScript (scriptName scriptPath scriptAttributes : jsval)
  : Eff unit :=
  try
    (_ <- exec ("cd " ++ template scriptPath ++ " ; ./" ++ template scriptName
                  ++ " " ++ template scriptAttributes) ;;
     ret tt)
  catch
    (fun error =>
       match error with
       | ErrorObject _ message =>
           console_error (LogText ("Error executing script: " ++ message)) ;;
           showErrorMessage ("Error executing script: " ++ message)
       | NonError _ =>
           console_error
             (LogText ("Error executing script: " ++ template_exn error)) ;;
           showErrorMessage ("Error executing script: " ++ template_exn error)
       end).

(** [displayPanel(htmlContent)]: opens the information tab, fills it, and
    disposes it when the timer fires. *)
Definition displayPanel (htmlContent : string) : Eff unit :=
  emit (CreateWebviewPanel "infoPanel" "Information") ;;
  emit (SetWebviewHtml (htmlContent ++ "<br><p>You can close this tab now.</p>")) ;;
  emit DisposePanel.

Definition createRepoSh (scriptName scriptPath scriptAttributes : jsval)
  : Eff unit :=
  if truthy scriptAttributes then
    displayPanel "<h1>🆙 THE REPO HAS BEEN CREATED !!!</h1>" ;;
    executeScript scriptName scriptPath scriptAttributes
  else
    showErrorMessage "🛑 Required attributes missing".

Definition addSecretSh (scriptName scriptPath scriptAttributes : jsval)
  : Eff unit :=
  if truthy scriptAttributes then
    displayPanel "<h1>⏩ THE SECRET HAS BEEN ADDED !!!</h1>" ;;
    executeScript scriptName scriptPath scriptAttributes
  else
    showErrorMessage "🛑 Required attributes missing".

Definition pipelineGeneratorSh (scriptName scriptPath scriptAttributes : jsval)
  : Eff unit :=
  if truthy scriptAttributes then
    displayPanel "<h1>⏩ THE PIPELINE HAS BEEN CREATED !!!</h1>" ;;
    executeScript scriptName scriptPath scriptAttributes
  else
    showErrorMessage "🛑 Required attributes missing".

(** [scriptSelector(scriptId, scriptPath, scriptAttributes)]. *)
Definition scriptSelector (scriptId scriptPath scriptAttributes : jsval)
  : Eff unit :=
  if strict_eq scriptId "create-repo.sh" then
    createRepoSh scriptId scriptPath scriptAttributes
  else if strict_eq scriptId "add-secret.sh" then
    addSecretSh scriptId scriptPath scriptAttributes
  else if strict_eq scriptId "pipeline_generator.sh" then
    pipelineGeneratorSh (JString "pipeline_generator.sh") scriptPath
      scriptAttributes
  else
    showErrorMessage
      ("🛑 No script found for radio button ID: " ++ template scriptId).

End WithHost.
End HangarScriptsTs.

(** ** The dispatcher, compiled variant (promisified [exec]) *)

Module HangarScriptsJs.
Section WithHost.
Context {host : Host}.

(** [executeScript(scriptPath, scriptName, scriptAttributes)]: resolves to
    the standard output of the script, or rejects with a fresh [Error]
    whose message is the rendering of the caught one. *)
Definition executeScript (scriptPath scriptName scriptAttributes : jsval)
  : Eff string :=
  try
    (stdout <- exec ("cd " ++ template scriptPath ++ " ; ./"
                       ++ template scriptName ++ " "
                       ++ template scriptAttributes) ;;
     ret stdout)
  catch
    (fun error => throw (new_Error (template_exn error))).

(** [getScriptRelativePath(subdirectory)]. *)
Definition getScriptRelativePath (subdirectory : string) : string :=
  let absoluteScriptPath :=
    path_resolve __dirname ("../../scripts/" ++ subdirectory) in
  asRelativePath absoluteScriptPath false.

Definition createRepoSh (scriptName scriptAttributes : jsval) : Eff unit :=
  try
    (let scriptPath := getScriptRelativePath "repositories/github" in
     stdout <- executeScript (JString scriptPath) scriptName scriptAttributes ;;
     console_info ("STDOUT" ++ LF ++ stdout) ;;
     showInformationMessage "🆙 CREATING REPO ...")
  catch
    (fun error =>
       console_error (LogValue error) ;;
       showErrorMessage (template_exn error)).

Definition pipelineGeneratorSh (scriptName scriptAttributes : jsval)
  : Eff unit :=
  try
    (let scriptPath := getScriptRelativePath "pipelines/github" in
     stdout <- executeScript (JString scriptPath) scriptName scriptAttributes ;;
     console_info ("STDOUT" ++ LF ++ stdout) ;;
     showInformationMessage "⏩ GENERATING PIPELINE ...")
  catch
    (fun error =>
       console_error (LogValue error) ;;
       showErrorMessage (template_exn error)).

(** [scriptSelector(radioButtonId, scriptAttributes)]. *)
Definition scriptSelector (radioButtonId scriptAttributes : jsval)
  : Eff unit :=
  if strict_eq radioButtonId "create-repo.sh" then
    createRepoSh (JString "create-repo.sh") scriptAttributes
  else if strict_eq radioButtonId "pipeline_generator.sh" then
    pipelineGeneratorSh (JString "pipeline_generator.sh") scriptAttributes
  else
    showErrorMessage
      ("🛑 No script found for radio button ID: " ++ template radioButtonId).

End WithHost.
End HangarScriptsJs.

(** ** The selection model *)

(** A catalog entry, [ICustomRadioButton]. *)
Record ICustomRadioButton : Type := {
  id : string;
  label : string
}.

(** [vscode.TreeItemCheckboxState]. *)
Inductive TreeItemCheckboxState : Type :=
| Unchecked
| Checked.

(** Modelled from the spec: the class [RadioButtonDataProvider] and the
    tree items it holds are not among the sources; only their uses in the
    command handler are. An item (the spec's Action) is a catalog entry
    with its checked state, read by the handler as [checkboxState]. *)
Record RadioButton : Type := {
  button :> ICustomRadioButton;
  checkboxState : TreeItemCheckboxState
}.

(** Modelled from the spec: the selection model owns the ordered sequence
    of Actions and the two always-visible triggers (run, documentation),
    each with its label and command binding; the fields are the arguments
    of the constructor call in [createRadioButtonDataProvider]. *)
Record RadioButtonDataProvider : Type := {
  radioButtons : list RadioButton;
  runButtonLabel : string;
  runButtonCommand : string;
  documentationButtonLabel : string;
  documentationButtonCommand : string
}.

(** Modelled from the spec: the model is constructed once at startup from
    the fixed list, nothing being checked yet. *)
Definition newRadioButtonDataProvider
    (customRadioButtons : list ICustomRadioButton)
    (runLabel runCommand docLabel docCommand : string)
  : RadioButtonDataProvider :=
  {| radioButtons :=
       map (fun b => {| button := b; checkboxState := Unchecked |})
           customRadioButtons;
     runButtonLabel := runLabel;
     runButtonCommand := runCommand;
     documentationButtonLabel := docLabel;
     documentationButtonCommand := docCommand |}.

(** [createRadioButtonDataProvider()]. *)
Definition createRadioButtonDataProvider : RadioButtonDataProvider :=
  let customRadioButtons :=
    [ {| id := "create-repo.sh";
         label := "🆙 Create repo (repositories/github)" |};
      {| id := "pipeline_generator.sh";
         label := "⏩ Pipeline generator (pipelines/github)" |} ] in
  let runButtonLabel := "RUN" in
  let runButtonCommand := "hangar-cicd.runScripts" in
  let documentationButtonLabel := "OPEN DOCUMENTATION" in
  let documentationButtonCommand := "hangar-cicd.openDocu" in
  newRadioButtonDataProvider customRadioButtons runButtonLabel
    runButtonCommand documentationButtonLabel documentationButtonCommand.

Definition flip (state : TreeItemCheckboxState) : TreeItemCheckboxState :=
  match state with
  | Unchecked => Checked
  | Checked => Unchecked
  end.

(** Modelled from the spec: [toggle(id)] flips the checked state of the
    Action with the given id, and does nothing when no Action has it. The
    method belongs to the absent [RadioButtonDataProvider]. *)
Fixpoint toggle_in (i : string) (items : list RadioButton)
  : list RadioButton :=
  match items with
  | [] => []
  | rb :: rest =>
      if id rb =? i then
        {| button := button rb; checkboxState := flip (checkboxState rb) |}
          :: rest
      else rb :: toggle_in i rest
  end.

(** Modelled from the spec: [toggle] on the whole model; the triggers are
    not touched. *)
Definition toggle (i : string) (model : RadioButtonDataProvider)
  : RadioButtonDataProvider :=
  {| radioButtons := toggle_in i (radioButtons model);
     runButtonLabel := runButtonLabel model;
     runButtonCommand := runButtonCommand model;
     documentationButtonLabel := documentationButtonLabel model;
     documentationButtonCommand := documentationButtonCommand model |}.

(** ** The run-command handler *)

(** The [forEach] loop of the handler: the ids of the checked items, pushed
    in order. *)
Definition selectedScriptIds (items : list RadioButton) : list string :=
  fold_left
    (fun selected radioButton =>
       match checkboxState radioButton with
       | Checked => (selected ++ [id radioButton])%list
       | Unchecked => selected
       end)
    items [].

(** Reading an array of strings at an index. *)
Definition array_get (a : list string) (i : nat) : jsval :=
  match nth_error a i with
  | Some s => JString s
  | None => JUndefined
  end.

(** [vscode.window.showInputBox]: resolves to the text the user entered, or
    to [undefined] when the box is dismissed; [answer] is what the user
    does. *)
Definition showInputBox (prompt : string) (answer : jsval) : Eff jsval :=
  emit (ShowInputBox prompt) ;; ret answer.

(** The handler registered for [hangar-cicd.runScripts]; [selector] is the
    call [hangarScripts.scriptSelector(_, _)] with its two arguments. *)
Definition runScripts (selector : jsval -> jsval -> Eff unit)
    (radioButtonDataProvider : RadioButtonDataProvider) (answer : jsval)
  : Eff unit :=
  let selected := selectedScriptIds (radioButtons radioButtonDataProvider) in
  if (1 <? length selected)%nat then
    showErrorMessage "ERROR: Please select only one script at a time."
  else if (length selected =? 1)%nat then
    scriptAttributes <-
      showInputBox "✨ Enter ALL attributes separated by space ..." answer ;;
    selector (array_get selected 0) scriptAttributes
  else
    ret tt.

(** The handler wired to the TypeScript dispatcher: the call site gives two
    arguments to a method of three parameters, so the third is
    [undefined]. *)
Definition runScriptsTs {host : Host} :=
  runScripts
    (fun first second => HangarScriptsTs.scriptSelector first second JUndefined).

(** The handler wired to the compiled dispatcher. *)
Definition runScriptsJs {host : Host} :=
  runScripts HangarScriptsJs.scriptSelector.

(** ** Vocabulary of the properties *)

(** [s] occurs in [t]. *)
Definition occurs_in (s t : string) : Prop :=
  exists before after, t = before ++ s ++ after.

Definition is_space (c : ascii) : bool :=
  let n := nat_of_ascii c in
  ((n =? 32) || (n =? 9) || (n =? 10) || (n =? 11) || (n =? 12)
   || (n =? 13))%nat.

Fixpoint all_spaces (s : string) : bool :=
  match s with
  | EmptyString => true
  | String c rest => is_space c && all_spaces rest
  end.

(** A non-empty string of white space only. *)
Definition whitespace_only (s : string) : bool :=
  negb (s =? "") && all_spaces s.

Definition is_exec (ev : event) : bool :=
  match ev with
  | Exec _ => true
  | _ => false
  end.

(** The shell commands a trace spawns. *)
Definition spawned (tr : list event) : list event := filter is_exec tr.

(** The ids the TypeScript dispatcher maps to a script. *)
Definition known_ids_ts : list string :=
  ["create-repo.sh"; "add-secret.sh"; "pipeline_generator.sh"].

(** The ids the compiled dispatcher maps to a script. *)
Definition known_ids_js : list string :=
  ["create-repo.sh"; "pipeline_generator.sh"].

(** The category subdirectory the compiled dispatcher uses for a mapped
    id. *)
Definition category (actionId : string) : string :=
  if actionId =? "create-repo.sh" then "repositories/github"
  else "pipelines/github".

Definition is_checked (radioButton : RadioButton) : bool :=
  match checkboxState radioButton with
  | Checked => true
  | Unchecked => false
  end.

(** The prompt of the attribute input box. *)
Definition attributes_prompt : string :=
  "✨ Enter ALL attributes separated by space ...".

(** The command line the compiled dispatcher hands to the shell for a
    mapped id. *)
Definition js_command {host : Host} (actionId : string) (attributes : jsval)
  : string :=
  "cd " ++ HangarScriptsJs.getScriptRelativePath (category actionId)
    ++ " ; ./" ++ actionId ++ " " ++ template attributes.

(** The command line the TypeScript dispatcher hands to the shell. *)
Definition ts_command (actionId : string) (scriptPath attributes : jsval)
  : string :=
  "cd " ++ template scriptPath ++ " ; ./" ++ actionId ++ " "
    ++ template attributes.

(** The notification of the compiled dispatcher when a mapped script has
    run. *)
Definition done_message (actionId : string) : string :=
  if actionId =? "create-repo.sh" then "🆙 CREATING REPO ..."
  else "⏩ GENERATING PIPELINE ...".

(** The content the TypeScript dispatcher gives to its information tab. *)
Definition panel_html (actionId : string) : string :=
  (if actionId =? "create-repo.sh" then
     "<h1>🆙 THE REPO HAS BEEN CREATED !!!</h1>"
   else if actionId =? "add-secret.sh" then
     "<h1>⏩ THE SECRET HAS BEEN ADDED !!!</h1>"
   else "<h1>⏩ THE PIPELINE HAS BEEN CREATED !!!</h1>")
  ++ "<br><p>You can close this tab now.</p>".

(** The tab is filled after some shell command of the trace. *)
Definition panel_after_spawn (tr : list event) : Prop :=
  exists before command after html,
    tr = (before ++ Exec command :: after)%list
    /\ In (SetWebviewHtml html) after.

(** The report on success as C4 words it: an informational notification,
    the completion tab after the process, and the standard output in the
    log. *)
Definition completion_reported (tr : list event) (stdout : string) : Prop :=
  (exists message, In (ShowInformationMessage message) tr)
  /\ panel_after_spawn tr
  /\ (exists text, In (ConsoleInfo text) tr /\ occurs_in stdout text).

Definition is_notification (ev : event) : bool :=
  match ev with
  | ShowErrorMessage _ | ShowInformationMessage _ => true
  | _ => false
  end.

(** The notifications a trace shows to the user. *)
Definition notifications (tr : list event) : list event :=
  filter is_notification tr.

Definition is_panel_event (ev : event) : bool :=
  match ev with
  | CreateWebviewPanel _ _ | SetWebviewHtml _ | DisposePanel => true
  | _ => false
  end.

(** The value is a string among the given ids. *)
Definition mapped_in (ids : list string) (v : jsval) : Prop :=
  exists s, v = JString s /\ In s ids.

Definition is_prompt (ev : event) : bool :=
  match ev with
  | ShowInputBox _ => true
  | _ => false
  end.

(** ** A host for running the scenarios *)

(** Segments of a path, split at the slashes. *)
Fixpoint split_slash (s current : string) : list string :=
  match s with
  | EmptyString => [current]
  | String c rest =>
      if Ascii.eqb c "/" then current :: split_slash rest ""
      else split_slash rest (current ++ String c "")
  end.

(** Removal of empty, [.] and [..] segments, as POSIX [path.resolve] does
    on an absolute path. *)
Definition normalize_segments (segments : list string) : list string :=
  rev (fold_left
         (fun stack segment =>
            if (segment =? "") || (segment =? ".") then stack
            else if segment =? ".." then tl stack
            else segment :: stack)
         segments []).

Definition posix_resolve (from to : string) : string :=
  let full := if prefix "/" to then to else from ++ "/" ++ to in
  match normalize_segments (split_slash full "") with
  | [] => "/"
  | segments => fold_right (fun segment acc => "/" ++ segment ++ acc) "" segments
  end.

(** The shell of the scenarios fails exactly on the commands that mention
    [--fail]. *)
Definition scenario_shell (command : string) : exec_result :=
  match index 0 "--fail" command with
  | Some _ => Failed (ErrorObject "Error" ("Command failed: " ++ command))
  | None => Exited "done"
  end.

(** The extension is installed in [/ext] with its code in [/ext/out/src],
    and no workspace folder is open, so paths stay absolute. *)
Definition scenario_host : Host := {|
  run_shell := scenario_shell;
  path_resolve := posix_resolve;
  asRelativePath := fun path _ => path;
  __dirname := "/ext/out/src"
|}.

(** ** Elementary facts *)

Lemma truthy_false_iff (v : jsval) :
  truthy v = false <-> v = JUndefined \/ v = JString "".
Proof.
  destruct v as [|s]; simpl.
  - split; auto.
  - rewrite negb_false_iff, String.eqb_eq. split.
    + intros ->. now right.
    + intros [H|H]; [discriminate | now inversion H].
Qed.

Lemma whitespace_only_truthy (s : string) :
  whitespace_only s = true -> truthy (JString s) = true.
Proof.
  unfold whitespace_only. simpl. now intros [H _]%andb_true_iff.
Qed.

Lemma append_empty_r (s : string) : s ++ "" = s.
Proof.
  induction s as [|c s IH]; simpl; [reflexivity | now rewrite IH].
Qed.

Lemma occurs_in_suffix (s before : string) : occurs_in s (before ++ s).
Proof. exists before, "". now rewrite append_empty_r. Qed.

Lemma occurs_in_self (s : string) : occurs_in s s.
Proof. exact (occurs_in_suffix s ""). Qed.

Lemma occurs_in_empty (t : string) : occurs_in "" t.
Proof. now exists "", t. Qed.

Lemma not_in_cons_neq (x y : string) (l : list string) :
  ~ In x (y :: l) -> (x =? y) = false /\ ~ In x l.
Proof.
  intros H. split.
  - apply String.eqb_neq. intros ->. apply H. now left.
  - intros Hin. apply H. now right.
Qed.

Example scenario_resolve :
  @HangarScriptsJs.getScriptRelativePath scenario_host "repositories/github"
  = "/ext/scripts/repositories/github".
Proof. reflexivity. Qed.

(** ** Unknown action ids *)

Lemma ts_unknown_action {host : Host} (actionId : string)
    (scriptPath attributes : jsval) :
  ~ In actionId known_ids_ts ->
  HangarScriptsTs.scriptSelector (JString actionId) scriptPath attributes
  = ([ShowErrorMessage ("🛑 No script found for radio button ID: " ++ actionId)],
     Returned tt).
Proof.
  intros H. unfold known_ids_ts in H.
  apply not_in_cons_neq in H as [E1 H].
  apply not_in_cons_neq in H as [E2 H].
  apply not_in_cons_neq in H as [E3 _].
  unfold HangarScriptsTs.scriptSelector, strict_eq.
  now rewrite E1, E2, E3.
Qed.

Lemma js_unknown_action {host : Host} (actionId : string)
    (attributes : jsval) :
  ~ In actionId known_ids_js ->
  HangarScriptsJs.scriptSelector (JString actionId) attributes
  = ([ShowErrorMessage ("🛑 No script found for radio button ID: " ++ actionId)],
     Returned tt).
Proof.
  intros H. unfold known_ids_js in H.
  apply not_in_cons_neq in H as [E1 H].
  apply not_in_cons_neq in H as [E2 _].
  unfold HangarScriptsJs.scriptSelector, strict_eq.
  now rewrite E1, E2.
Qed.

Lemma known_js_known_ts (actionId : string) :
  In actionId known_ids_js -> In actionId known_ids_ts.
Proof. unfold known_ids_js, known_ids_ts. simpl. tauto. Qed.

(** C2: for every action id outside the three-id mapping, [scriptSelector]
    (in either variant, whatever the other arguments are) only shows the
    error notification "No script found for radio button ID: <id>", which
    mentions the id, and spawns no process. *)
Theorem unknown_action_rejected {host : Host} (actionId : string)
    (scriptPath attributes : jsval) :
  ~ In actionId known_ids_ts ->
  let message := "🛑 No script found for radio button ID: " ++ actionId in
  HangarScriptsTs.scriptSelector (JString actionId) scriptPath attributes
  = ([ShowErrorMessage message], Returned tt)
  /\ HangarScriptsJs.scriptSelector (JString actionId) attributes
     = ([ShowErrorMessage message], Returned tt)
  /\ occurs_in actionId message
  /\ spawned
       (trace (HangarScriptsTs.scriptSelector (JString actionId) scriptPath
                 attributes)) = []
  /\ spawned
       (trace (HangarScriptsJs.scriptSelector (JString actionId) attributes))
     = [].
Proof.
  intros H message.
  assert (Hjs : ~ In actionId known_ids_js)
    by (intros Hin; apply H, known_js_known_ts, Hin).
  rewrite (ts_unknown_action actionId scriptPath attributes H).
  rewrite (js_unknown_action actionId attributes Hjs).
  repeat split; try reflexivity.
  apply occurs_in_suffix.
Qed.

Lemma unknown_action_rejected_witness :
  ~ In "nonexistent.sh" known_ids_ts
  /\ @HangarScriptsTs.scriptSelector scenario_host (JString "nonexistent.sh")
       (JString "scripts") (JString "-x")
     = ([ShowErrorMessage
           "🛑 No script found for radio button ID: nonexistent.sh"],
        Returned tt)
  /\ @HangarScriptsJs.scriptSelector scenario_host (JString "nonexistent.sh")
       (JString "-x")
     = ([ShowErrorMessage
           "🛑 No script found for radio button ID: nonexistent.sh"],
        Returned tt).
Proof.
  assert (H : ~ In "nonexistent.sh" known_ids_ts)
    by (simpl; intuition discriminate).
  split; [exact H |].
  destruct (@unknown_action_rejected scenario_host "nonexistent.sh"
              (JString "scripts") (JString "-x") H) as (Hts & Hjs & _).
  split; [exact Hts | exact Hjs].
Defined.

(** ** Missing attributes *)

(** The claim of C1 fails on both variants: the guard of the TypeScript
    variant is a truthiness test, which a blank string passes, and the
    compiled variant has no guard, so even the empty string is spawned. *)
Lemma blank_attributes_counterexample :
  whitespace_only " " = true
  /\ spawned
       (trace (@HangarScriptsTs.scriptSelector scenario_host
                 (JString "create-repo.sh") (JString "scripts") (JString " ")))
     = [Exec "cd scripts ; ./create-repo.sh  "]
  /\ spawned
       (trace (@HangarScriptsJs.scriptSelector scenario_host
                 (JString "pipeline_generator.sh") (JString "")))
     = [Exec "cd /ext/scripts/pipelines/github ; ./pipeline_generator.sh "].
Proof. repeat split. Qed.

(** C1 (amended): in the TypeScript variant, a call of [scriptSelector]
    whose attributes are the empty string or [undefined] only shows an
    error notification and spawns nothing; for the three mapped ids the
    notification is "Required attributes missing". *)
Theorem missing_attributes_rejected {host : Host} (scriptId : string)
    (scriptPath scriptAttributes : jsval) :
  scriptAttributes = JUndefined \/ scriptAttributes = JString "" ->
  exists message,
    HangarScriptsTs.scriptSelector (JString scriptId) scriptPath
      scriptAttributes
    = ([ShowErrorMessage message], Returned tt)
    /\ spawned
         (trace (HangarScriptsTs.scriptSelector (JString scriptId) scriptPath
                   scriptAttributes)) = []
    /\ (In scriptId known_ids_ts ->
        message = "🛑 Required attributes missing").
Proof.
  intros Hblank%truthy_false_iff.
  unfold HangarScriptsTs.scriptSelector, HangarScriptsTs.createRepoSh,
    HangarScriptsTs.addSecretSh, HangarScriptsTs.pipelineGeneratorSh,
    strict_eq.
  rewrite Hblank.
  destruct (scriptId =? "create-repo.sh") eqn:E1;
    [eexists; repeat split |].
  destruct (scriptId =? "add-secret.sh") eqn:E2;
    [eexists; repeat split |].
  destruct (scriptId =? "pipeline_generator.sh") eqn:E3;
    [eexists; repeat split |].
  eexists; repeat split.
  intros [<- | [<- | [<- | []]]]; discriminate.
Qed.

Lemma missing_attributes_rejected_witness :
  (JString "" = JUndefined \/ JString "" = JString "")
  /\ @HangarScriptsTs.scriptSelector scenario_host
       (JString "pipeline_generator.sh") (JString "scripts") (JString "")
     = ([ShowErrorMessage "🛑 Required attributes missing"], Returned tt).
Proof.
  assert (H : JString "" = JUndefined \/ JString "" = JString "")
    by (right; reflexivity).
  split; [exact H |].
  destruct (@missing_attributes_rejected scenario_host "pipeline_generator.sh"
              (JString "scripts") (JString "") H) as (message & Heq & _ & Hmsg).
  rewrite Heq. rewrite Hmsg; [reflexivity |].
  simpl. auto.
Defined.

(** ** The validation gate *)

Lemma selected_push (items : list RadioButton) (selected : list string) :
  fold_left
    (fun selected radioButton =>
       match checkboxState radioButton with
       | Checked => (selected ++ [id radioButton])%list
       | Unchecked => selected
       end)
    items selected
  = (selected ++ map (fun rb : RadioButton => id rb) (filter is_checked items))%list.
Proof.
  revert selected. induction items as [|rb items IH]; intros selected; simpl.
  - now rewrite app_nil_r.
  - rewrite IH. unfold is_checked. destruct (checkboxState rb); simpl.
    + reflexivity.
    + now rewrite <- app_assoc.
Qed.

Lemma selectedScriptIds_checked (items : list RadioButton) :
  selectedScriptIds items
  = map (fun rb : RadioButton => id rb) (filter is_checked items).
Proof. unfold selectedScriptIds. now rewrite selected_push. Qed.

(** The handler, read off the list of checked items. *)
Lemma runScripts_cases (selector : jsval -> jsval -> Eff unit)
    (provider : RadioButtonDataProvider) (answer : jsval) :
  runScripts selector provider answer
  = match filter is_checked (radioButtons provider) with
    | [] => ret tt
    | [radioButton] =>
        emit (ShowInputBox attributes_prompt) ;;
        selector (JString (id radioButton)) answer
    | _ :: _ :: _ =>
        showErrorMessage "ERROR: Please select only one script at a time."
    end.
Proof.
  unfold runScripts. rewrite selectedScriptIds_checked.
  destruct (filter is_checked (radioButtons provider)) as [|rb [|rb' rest]];
    reflexivity.
Qed.

(** C3: the run handler behaves by the number of checked Actions. With
    two or more it only shows the "select only one" error (no prompt, no
    dispatch, whatever the dispatcher is); with none it does nothing; with
    exactly one it shows the attribute prompt and then calls the dispatcher
    with the id of that Action, as it is, and the entered text. *)
Theorem run_gate_by_count (selector : jsval -> jsval -> Eff unit)
    (provider : RadioButtonDataProvider) (answer : jsval) :
  let count := length (filter is_checked (radioButtons provider)) in
  (1 < count ->
   runScripts selector provider answer
   = ([ShowErrorMessage "ERROR: Please select only one script at a time."],
      Returned tt))
  /\ (count = 0 -> runScripts selector provider answer = ([], Returned tt))
  /\ (count = 1 ->
      exists radioButton,
        In radioButton (radioButtons provider)
        /\ checkboxState radioButton = Checked
        /\ filter is_checked (radioButtons provider) = [radioButton]
        /\ runScripts selector provider answer
           = (emit (ShowInputBox attributes_prompt) ;;
              selector (JString (id radioButton)) answer)).
Proof.
  intros count. subst count. rewrite runScripts_cases.
  destruct (filter is_checked (radioButtons provider))
    as [|rb [|rb' rest]] eqn:E; simpl.
  - split; [| split].
    + intros H. inversion H.
    + reflexivity.
    + discriminate.
  - split; [| split].
    + intros H. apply Nat.lt_irrefl in H. contradiction.
    + discriminate.
    + intros _. exists rb.
      assert (Hin : In rb (filter is_checked (radioButtons provider)))
        by (rewrite E; now left).
      apply filter_In in Hin as [Hin Hchecked].
      unfold is_checked in Hchecked.
      destruct (checkboxState rb); [discriminate |]. auto.
  - split; [| split].
    + reflexivity.
    + discriminate.
    + discriminate.
Qed.

Lemma run_gate_by_count_witness :
  (1 < length
         (filter is_checked
            (radioButtons
               (toggle "pipeline_generator.sh"
                  (toggle "create-repo.sh" createRadioButtonDataProvider))))
   /\ runScripts (@HangarScriptsJs.scriptSelector scenario_host)
        (toggle "pipeline_generator.sh"
           (toggle "create-repo.sh" createRadioButtonDataProvider))
        (JString "-x")
      = ([ShowErrorMessage "ERROR: Please select only one script at a time."],
         Returned tt))
  /\ (length (filter is_checked (radioButtons createRadioButtonDataProvider))
      = 0
      /\ runScripts (@HangarScriptsJs.scriptSelector scenario_host)
           createRadioButtonDataProvider (JString "-x")
         = ([], Returned tt))
  /\ (length
        (filter is_checked
           (radioButtons
              (toggle "pipeline_generator.sh" createRadioButtonDataProvider)))
      = 1
      /\ exists radioButton,
          filter is_checked
            (radioButtons
               (toggle "pipeline_generator.sh" createRadioButtonDataProvider))
          = [radioButton]
          /\ runScripts (@HangarScriptsJs.scriptSelector scenario_host)
               (toggle "pipeline_generator.sh" createRadioButtonDataProvider)
               (JString "-x")
             = (emit (ShowInputBox attributes_prompt) ;;
                @HangarScriptsJs.scriptSelector scenario_host
                  (JString (id radioButton)) (JString "-x"))).
Proof.
  split; [| split].
  - assert (H : 1 < length
                      (filter is_checked
                         (radioButtons
                            (toggle "pipeline_generator.sh"
                               (toggle "create-repo.sh"
                                  createRadioButtonDataProvider)))))
      by exact (le_n 2).
    split; [exact H |].
    exact (proj1 (run_gate_by_count _ _ _) H).
  - assert (H : length
                  (filter is_checked
                     (radioButtons createRadioButtonDataProvider)) = 0)
      by reflexivity.
    split; [exact H |].
    exact (proj1 (proj2 (run_gate_by_count _ _ _)) H).
  - assert (H : length
                  (filter is_checked
                     (radioButtons
                        (toggle "pipeline_generator.sh"
                           createRadioButtonDataProvider))) = 1)
      by reflexivity.
    split; [exact H |].
    destruct (proj2 (proj2 (run_gate_by_count
                              (@HangarScriptsJs.scriptSelector scenario_host)
                              _ (JString "-x"))) H)
      as (rb & _ & _ & Hone & Hrun).
    exists rb. split; [exact Hone | exact Hrun].
Defined.

(** The three cases on the catalog of the extension. *)
Example run_gate_none :
  runScripts (@HangarScriptsJs.scriptSelector scenario_host)
    createRadioButtonDataProvider (JString "-x")
  = ([], Returned tt).
Proof. reflexivity. Qed.

Example run_gate_two :
  runScripts (@HangarScriptsJs.scriptSelector scenario_host)
    (toggle "pipeline_generator.sh"
       (toggle "create-repo.sh" createRadioButtonDataProvider))
    (JString "-x")
  = ([ShowErrorMessage "ERROR: Please select only one script at a time."],
     Returned tt).
Proof. reflexivity. Qed.

Example run_gate_one :
  runScripts (@HangarScriptsJs.scriptSelector scenario_host)
    (toggle "create-repo.sh" createRadioButtonDataProvider)
    (JString "-a create -n repo-test -d /tmp/x")
  = ([ShowInputBox "✨ Enter ALL attributes separated by space ...";
      Exec "cd /ext/scripts/repositories/github ; ./create-repo.sh -a create -n repo-test -d /tmp/x";
      ConsoleInfo ("STDOUT" ++ LF ++ "done");
      ShowInformationMessage "🆙 CREATING REPO ..."],
     Returned tt).
Proof. reflexivity. Qed.

(** ** The two-argument call into the TypeScript dispatcher *)

Lemma ts_undefined_attributes {host : Host} (scriptId : string)
    (scriptPath : jsval) :
  In scriptId known_ids_ts ->
  HangarScriptsTs.scriptSelector (JString scriptId) scriptPath JUndefined
  = ([ShowErrorMessage "🛑 Required attributes missing"], Returned tt).
Proof.
  intros [<- | [<- | [<- | []]]]; reflexivity.
Qed.

(** C7: in the TypeScript variant the run handler gives [scriptSelector]
    two arguments, so what the user typed lands in [scriptPath] and
    [scriptAttributes] is [undefined]; hence, for a checked Action with one
    of the three mapped ids and whatever the user enters, the handler shows
    the prompt, then "Required attributes missing", and spawns nothing. *)
Theorem ts_handler_never_spawns {host : Host}
    (provider : RadioButtonDataProvider) (radioButton : RadioButton)
    (answer : jsval) :
  filter is_checked (radioButtons provider) = [radioButton] ->
  In (id radioButton) known_ids_ts ->
  runScriptsTs provider answer
  = (emit (ShowInputBox attributes_prompt) ;;
     HangarScriptsTs.scriptSelector (JString (id radioButton)) answer
       JUndefined)
  /\ runScriptsTs provider answer
     = ([ShowInputBox attributes_prompt;
         ShowErrorMessage "🛑 Required attributes missing"], Returned tt)
  /\ spawned (trace (runScriptsTs provider answer)) = [].
Proof.
  intros Hone Hknown. unfold runScriptsTs.
  rewrite runScripts_cases, Hone.
  rewrite (ts_undefined_attributes _ answer Hknown).
  repeat split.
Qed.

Lemma ts_handler_never_spawns_witness :
  filter is_checked
    (radioButtons (toggle "create-repo.sh" createRadioButtonDataProvider))
  = [ {| button := {| id := "create-repo.sh";
                      label := "🆙 Create repo (repositories/github)" |};
         checkboxState := Checked |} ]
  /\ In "create-repo.sh" known_ids_ts
  /\ @runScriptsTs scenario_host
       (toggle "create-repo.sh" createRadioButtonDataProvider)
       (JString "-a create -n repo-test -d /tmp/x")
     = ([ShowInputBox "✨ Enter ALL attributes separated by space ...";
         ShowErrorMessage "🛑 Required attributes missing"], Returned tt).
Proof.
  assert (H1 : filter is_checked
                 (radioButtons
                    (toggle "create-repo.sh" createRadioButtonDataProvider))
               = [ {| button := {| id := "create-repo.sh";
                                   label := "🆙 Create repo (repositories/github)" |};
                      checkboxState := Checked |} ]) by reflexivity.
  assert (H2 : In "create-repo.sh" known_ids_ts) by (simpl; auto).
  split; [exact H1 |]. split; [exact H2 |].
  exact (proj1 (proj2 (@ts_handler_never_spawns scenario_host _ _
                         (JString "-a create -n repo-test -d /tmp/x") H1 H2))).
Defined.

(** ** Traces of a dispatch of a mapped id *)

Lemma js_dispatch {host : Host} (actionId : string) (attributes : jsval) :
  In actionId known_ids_js ->
  HangarScriptsJs.scriptSelector (JString actionId) attributes
  = match run_shell (js_command actionId attributes) with
    | Exited stdout =>
        ([Exec (js_command actionId attributes);
          ConsoleInfo ("STDOUT" ++ LF ++ stdout);
          ShowInformationMessage (done_message actionId)], Returned tt)
    | Failed error =>
        ([Exec (js_command actionId attributes);
          ConsoleError (LogValue (new_Error (template_exn error)));
          ShowErrorMessage (template_exn (new_Error (template_exn error)))],
         Returned tt)
    end.
Proof.
  intros [<- | [<- | []]];
    cbv -[run_shell path_resolve asRelativePath __dirname];
    destruct (run_shell _); reflexivity.
Qed.

Lemma ts_dispatch {host : Host} (actionId : string)
    (scriptPath attributes : jsval) :
  In actionId known_ids_ts ->
  truthy attributes = true ->
  HangarScriptsTs.scriptSelector (JString actionId) scriptPath attributes
  = ([CreateWebviewPanel "infoPanel" "Information";
      SetWebviewHtml (panel_html actionId);
      DisposePanel;
      Exec (ts_command actionId scriptPath attributes)]
     ++ match run_shell (ts_command actionId scriptPath attributes) with
        | Exited _ => []
        | Failed error =>
            [ConsoleError
               (LogText ("Error executing script: " ++ raw_text error));
             ShowErrorMessage ("Error executing script: " ++ raw_text error)]
        end,
     Returned tt)%list.
Proof.
  intros Hid Htruthy.
  unfold HangarScriptsTs.scriptSelector, HangarScriptsTs.createRepoSh,
    HangarScriptsTs.addSecretSh, HangarScriptsTs.pipelineGeneratorSh.
  destruct Hid as [<- | [<- | [<- | []]]]; simpl strict_eq; cbv iota;
    rewrite Htruthy; cbv -[run_shell];
    (destruct (run_shell _) as [out|[n m|t]]; reflexivity).
Qed.

Lemma js_dispatch_report {host : Host} (actionId : string)
    (attributes : jsval) :
  In actionId known_ids_js ->
  exists report,
    trace (HangarScriptsJs.scriptSelector (JString actionId) attributes)
    = Exec (js_command actionId attributes) :: report
    /\ spawned report = [].
Proof.
  intros Hid. rewrite (js_dispatch actionId attributes Hid).
  destruct (run_shell (js_command actionId attributes));
    eexists; split; reflexivity.
Qed.

Lemma js_dispatch_spawned {host : Host} (actionId : string)
    (attributes : jsval) :
  In actionId known_ids_js ->
  spawned (trace (HangarScriptsJs.scriptSelector (JString actionId) attributes))
  = [Exec (js_command actionId attributes)].
Proof.
  intros Hid.
  destruct (js_dispatch_report actionId attributes Hid) as (report & -> & Hrep).
  simpl. now rewrite Hrep.
Qed.

Lemma ts_dispatch_spawned {host : Host} (actionId : string)
    (scriptPath attributes : jsval) :
  In actionId known_ids_ts ->
  truthy attributes = true ->
  spawned
    (trace (HangarScriptsTs.scriptSelector (JString actionId) scriptPath
              attributes))
  = [Exec (ts_command actionId scriptPath attributes)].
Proof.
  intros Hid Htruthy. rewrite (ts_dispatch actionId scriptPath attributes Hid Htruthy).
  destruct (run_shell (ts_command actionId scriptPath attributes)); reflexivity.
Qed.

(** ** The command line *)

(** C8: in both variants [executeScript] hands to the shell exactly the
    string "cd " + scriptPath + " ; ./" + scriptName + " " +
    scriptAttributes, every part taken as it is; in particular a dispatch
    of a mapped id with attributes made of white space only does spawn the
    script, with that white space as its whole argument text. *)
Theorem command_line_verbatim {host : Host} :
  (forall scriptName scriptPath scriptAttributes : jsval,
      let command := "cd " ++ template scriptPath ++ " ; ./"
                       ++ template scriptName ++ " "
                       ++ template scriptAttributes in
      exists report,
        HangarScriptsTs.executeScript scriptName scriptPath scriptAttributes
        = (Exec command :: report, Returned tt)
        /\ spawned report = [])
  /\ (forall scriptPath scriptName scriptAttributes : jsval,
         let command := "cd " ++ template scriptPath ++ " ; ./"
                          ++ template scriptName ++ " "
                          ++ template scriptAttributes in
         exists result,
           HangarScriptsJs.executeScript scriptPath scriptName
             scriptAttributes
           = ([Exec command], result))
  /\ (forall (actionId : string) (scriptPath : jsval) (blank : string),
         In actionId known_ids_ts ->
         whitespace_only blank = true ->
         spawned
           (trace (HangarScriptsTs.scriptSelector (JString actionId)
                     scriptPath (JString blank)))
         = [Exec ("cd " ++ template scriptPath ++ " ; ./" ++ actionId ++ " "
                    ++ blank)])
  /\ (forall (actionId blank : string),
         In actionId known_ids_js ->
         whitespace_only blank = true ->
         spawned
           (trace (HangarScriptsJs.scriptSelector (JString actionId)
                     (JString blank)))
         = [Exec ("cd "
                    ++ HangarScriptsJs.getScriptRelativePath (category actionId)
                    ++ " ; ./" ++ actionId ++ " " ++ blank)]).
Proof.
  repeat split.
  - intros scriptName scriptPath scriptAttributes command.
    unfold HangarScriptsTs.executeScript, exec. subst command.
    cbv -[run_shell append template].
    destruct (run_shell _) as [out | [n m | t]]; eexists; split; reflexivity.
  - intros scriptPath scriptName scriptAttributes command.
    unfold HangarScriptsJs.executeScript, exec. subst command.
    cbv -[run_shell append template Error_toString].
    destruct (run_shell _) as [out | e]; eexists; reflexivity.
  - intros actionId scriptPath blank Hid Hblank.
    apply (ts_dispatch_spawned actionId scriptPath (JString blank) Hid).
    now apply whitespace_only_truthy.
  - intros actionId blank Hid _.
    exact (js_dispatch_spawned actionId (JString blank) Hid).
Qed.

Lemma command_line_verbatim_witness :
  (In "create-repo.sh" known_ids_ts /\ In "create-repo.sh" known_ids_js
   /\ whitespace_only "  " = true)
  /\ spawned
       (trace (@HangarScriptsTs.scriptSelector scenario_host
                 (JString "create-repo.sh") (JString "a b; ls") (JString "  ")))
     = [Exec "cd a b; ls ; ./create-repo.sh   "]
  /\ spawned
       (trace (@HangarScriptsJs.scriptSelector scenario_host
                 (JString "create-repo.sh") (JString "  ")))
     = [Exec "cd /ext/scripts/repositories/github ; ./create-repo.sh   "].
Proof.
  assert (H1 : In "create-repo.sh" known_ids_ts) by (simpl; auto).
  assert (H2 : In "create-repo.sh" known_ids_js) by (simpl; auto).
  assert (H3 : whitespace_only "  " = true) by reflexivity.
  split; [exact (conj H1 (conj H2 H3)) |].
  destruct (@command_line_verbatim scenario_host) as (_ & _ & Hts & Hjs).
  split.
  - exact (Hts "create-repo.sh" (JString "a b; ls") "  " H1 H3).
  - exact (Hjs "create-repo.sh" "  " H2 H3).
Defined.

(** ** Dispatch of the mapped ids *)

(** The claim of C5 fails for [add-secret.sh]: the compiled variant has no
    case for it, shows the unknown-id error and spawns nothing, although
    the attributes are not empty. *)
Lemma add_secret_counterexample :
  In "add-secret.sh" known_ids_ts
  /\ truthy (JString "-x") = true
  /\ @HangarScriptsJs.scriptSelector scenario_host (JString "add-secret.sh")
       (JString "-x")
     = ([ShowErrorMessage
           "🛑 No script found for radio button ID: add-secret.sh"],
        Returned tt)
  /\ spawned
       (trace (@HangarScriptsJs.scriptSelector scenario_host
                 (JString "add-secret.sh") (JString "-x"))) = [].
Proof. simpl. auto 6. Qed.

(** C5 (amended): the compiled variant maps two ids, [create-repo.sh] to
    the category [repositories/github] and [pipeline_generator.sh] to
    [pipelines/github]; for each, whatever the attributes, it resolves
    [../../scripts/<category>] from the directory of the module, makes it
    workspace-relative, spawns once the command "cd <path> ; ./<id>
    <attributes>", awaits it and only then reports: on exit code 0 it logs
    the standard output and shows the notification of the action, on a
    failure it logs and shows the error. It has no case for
    [add-secret.sh]. The TypeScript variant maps the three ids and, when
    the attributes are truthy, spawns once "cd <scriptPath> ; ./<id>
    <attributes>" in the path its caller supplies; apart from its
    information tab, it does nothing before the command, and what follows
    the command is decided by how the command ended: nothing on exit code
    0, the logged and shown error on a failure. *)
Theorem mapped_ids_spawn {host : Host} :
  (forall (actionId : string) (attributes : jsval),
      In actionId known_ids_js ->
      let scriptPath :=
        asRelativePath
          (path_resolve __dirname ("../../scripts/" ++ category actionId))
          false in
      let command := "cd " ++ scriptPath ++ " ; ./" ++ actionId ++ " "
                       ++ template attributes in
      HangarScriptsJs.scriptSelector (JString actionId) attributes
      = (Exec command
           :: match run_shell command with
              | Exited stdout =>
                  [ConsoleInfo ("STDOUT" ++ LF ++ stdout);
                   ShowInformationMessage (done_message actionId)]
              | Failed error =>
                  [ConsoleError (LogValue (new_Error (template_exn error)));
                   ShowErrorMessage
                     (template_exn (new_Error (template_exn error)))]
              end,
         Returned tt))
  /\ category "create-repo.sh" = "repositories/github"
  /\ category "pipeline_generator.sh" = "pipelines/github"
  /\ (forall attributes : jsval,
         spawned
           (trace (HangarScriptsJs.scriptSelector (JString "add-secret.sh")
                     attributes)) = [])
  /\ (forall (actionId : string) (scriptPath attributes : jsval),
         In actionId known_ids_ts ->
         truthy attributes = true ->
         let command := "cd " ++ template scriptPath ++ " ; ./" ++ actionId
                          ++ " " ++ template attributes in
         spawned
           (trace (HangarScriptsTs.scriptSelector (JString actionId)
                     scriptPath attributes))
         = [Exec command]
         /\ exists before,
             trace (HangarScriptsTs.scriptSelector (JString actionId)
                      scriptPath attributes)
             = (before
                  ++ Exec command
                  :: match run_shell command with
                     | Exited _ => []
                     | Failed error =>
                         [ConsoleError
                            (LogText
                               ("Error executing script: " ++ raw_text error));
                          ShowErrorMessage
                            ("Error executing script: " ++ raw_text error)]
                     end)%list
             /\ (forall ev, In ev before -> is_panel_event ev = true)
             /\ spawned before = []
             /\ notifications before = []).
Proof.
  split; [| split; [reflexivity | split; [reflexivity | split]]].
  - intros actionId attributes Hid scriptPath command.
    rewrite (js_dispatch actionId attributes Hid).
    change (js_command actionId attributes) with command.
    now destruct (run_shell command).
  - intros attributes. rewrite js_unknown_action; [reflexivity |].
    simpl. intuition discriminate.
  - intros actionId scriptPath attributes Hid Htruthy command. split.
    + exact (ts_dispatch_spawned actionId scriptPath attributes Hid Htruthy).
    + exists [CreateWebviewPanel "infoPanel" "Information";
              SetWebviewHtml (panel_html actionId);
              DisposePanel].
      rewrite (ts_dispatch actionId scriptPath attributes Hid Htruthy).
      repeat split.
      intros ev [<- | [<- | [<- | []]]]; reflexivity.
Qed.

Lemma mapped_ids_spawn_witness :
  (In "create-repo.sh" known_ids_js /\ In "add-secret.sh" known_ids_ts
   /\ truthy (JString "-a create -n repo-test -d /tmp/x") = true)
  /\ @HangarScriptsJs.scriptSelector scenario_host (JString "create-repo.sh")
       (JString "-a create -n repo-test -d /tmp/x")
     = ([Exec "cd /ext/scripts/repositories/github ; ./create-repo.sh -a create -n repo-test -d /tmp/x";
         ConsoleInfo ("STDOUT" ++ LF ++ "done");
         ShowInformationMessage "🆙 CREATING REPO ..."], Returned tt)
  /\ spawned
       (trace (@HangarScriptsTs.scriptSelector scenario_host
                 (JString "add-secret.sh") (JString "scripts/secrets")
                 (JString "-a create -n repo-test -d /tmp/x")))
     = [Exec "cd scripts/secrets ; ./add-secret.sh -a create -n repo-test -d /tmp/x"].
Proof.
  assert (H1 : In "create-repo.sh" known_ids_js) by (simpl; auto).
  assert (H2 : In "add-secret.sh" known_ids_ts) by (simpl; auto).
  assert (H3 : truthy (JString "-a create -n repo-test -d /tmp/x") = true)
    by reflexivity.
  split; [exact (conj H1 (conj H2 H3)) |].
  destruct (@mapped_ids_spawn scenario_host) as (Hjs & _ & _ & _ & Hts).
  split.
  - exact (Hjs "create-repo.sh" (JString "-a create -n repo-test -d /tmp/x") H1).
  - exact (proj1 (Hts "add-secret.sh" (JString "scripts/secrets")
                    (JString "-a create -n repo-test -d /tmp/x") H2 H3)).
Defined.

(** ** Reporting a successful run *)

Lemma panel_after_spawn_has_panel (tr : list event) :
  panel_after_spawn tr -> exists html, In (SetWebviewHtml html) tr.
Proof.
  intros (before & command & after & html & -> & Hin).
  exists html. apply in_or_app. right. now right.
Qed.

(** The claim of C4 fails on the scenario of the specification, in both
    variants: the compiled one logs and notifies but opens no tab; the
    TypeScript one opens the tab but neither notifies nor logs. In the
    TypeScript variant, moreover, the tab that says the repository has been
    created is shown and disposed before the command is run, although
    [displayPanel] is documented as notifying that the script has been
    executed: a defect of the code, which the amended statement below does
    not take up. *)
Lemma completion_report_counterexample :
  scenario_shell
    "cd /ext/scripts/repositories/github ; ./create-repo.sh -a create -n repo-test -d /tmp/x"
  = Exited "done"
  /\ trace (@HangarScriptsJs.scriptSelector scenario_host
              (JString "create-repo.sh")
              (JString "-a create -n repo-test -d /tmp/x"))
     = [Exec "cd /ext/scripts/repositories/github ; ./create-repo.sh -a create -n repo-test -d /tmp/x";
        ConsoleInfo ("STDOUT" ++ LF ++ "done");
        ShowInformationMessage "🆙 CREATING REPO ..."]
  /\ ~ completion_reported
         (trace (@HangarScriptsJs.scriptSelector scenario_host
                   (JString "create-repo.sh")
                   (JString "-a create -n repo-test -d /tmp/x")))
         "done"
  /\ trace (@HangarScriptsTs.scriptSelector scenario_host
              (JString "create-repo.sh") (JString "scripts")
              (JString "-a create -n repo-test -d /tmp/x"))
     = [CreateWebviewPanel "infoPanel" "Information";
        SetWebviewHtml
          "<h1>🆙 THE REPO HAS BEEN CREATED !!!</h1><br><p>You can close this tab now.</p>";
        DisposePanel;
        Exec "cd scripts ; ./create-repo.sh -a create -n repo-test -d /tmp/x"]
  /\ ~ panel_after_spawn
         (trace (@HangarScriptsTs.scriptSelector scenario_host
                   (JString "create-repo.sh") (JString "scripts")
                   (JString "-a create -n repo-test -d /tmp/x")))
  /\ ~ completion_reported
         (trace (@HangarScriptsTs.scriptSelector scenario_host
                   (JString "create-repo.sh") (JString "scripts")
                   (JString "-a create -n repo-test -d /tmp/x")))
         "done".
Proof.
  split; [reflexivity |]. split; [reflexivity |]. split.
  - intros (_ & Hpanel & _).
    apply panel_after_spawn_has_panel in Hpanel as (html & Hin).
    vm_compute in Hin. intuition discriminate.
  - split; [reflexivity |]. split.
    + intros (before & command & after & html & Heq & Hin).
      change (trace (@HangarScriptsTs.scriptSelector scenario_host
                       (JString "create-repo.sh") (JString "scripts")
                       (JString "-a create -n repo-test -d /tmp/x")))
        with [CreateWebviewPanel "infoPanel" "Information";
              SetWebviewHtml (panel_html "create-repo.sh");
              DisposePanel;
              Exec (ts_command "create-repo.sh" (JString "scripts")
                      (JString "-a create -n repo-test -d /tmp/x"))]
        in Heq.
      destruct before as [|e1 [|e2 [|e3 [|e4 before]]]];
        try discriminate Heq.
      * injection Heq as _ _ _ Heq. subst after. destruct Hin.
      * injection Heq as _ _ _ _ Heq.
        destruct before; discriminate Heq.
    + intros ((message & Hin) & _).
      vm_compute in Hin. intuition discriminate.
Qed.

(** C4 (amended): when the script of a mapped id exits with code 0, the
    compiled variant logs "STDOUT" and the captured standard output, then
    shows an informational notification specific to the action ("CREATING
    REPO ..." for [create-repo.sh], "GENERATING PIPELINE ..." for
    [pipeline_generator.sh]), and opens no tab. The TypeScript variant
    opens exactly one information tab, fills it with a text specific to the
    action (containing "CREATED" for [create-repo.sh]) and disposes it,
    spawns the one command, and shows no notification, asks nothing and
    logs nothing. Whether the tab comes before or after the command is not
    part of this statement. *)
Theorem completion_reporting {host : Host} :
  (forall (actionId : string) (attributes : jsval) (stdout : string),
      In actionId known_ids_js ->
      run_shell (js_command actionId attributes) = Exited stdout ->
      HangarScriptsJs.scriptSelector (JString actionId) attributes
      = ([Exec (js_command actionId attributes);
          ConsoleInfo ("STDOUT" ++ LF ++ stdout);
          ShowInformationMessage (done_message actionId)], Returned tt))
  /\ done_message "create-repo.sh" = "🆙 CREATING REPO ..."
  /\ done_message "pipeline_generator.sh" = "⏩ GENERATING PIPELINE ..."
  /\ done_message "create-repo.sh" <> done_message "pipeline_generator.sh"
  /\ occurs_in "CREATING" (done_message "create-repo.sh")
  /\ (forall (actionId : string) (scriptPath attributes : jsval)
        (stdout : string),
         In actionId known_ids_ts ->
         truthy attributes = true ->
         run_shell (ts_command actionId scriptPath attributes) = Exited stdout ->
         let tr :=
           trace (HangarScriptsTs.scriptSelector (JString actionId) scriptPath
                    attributes) in
         filter is_panel_event tr
         = [CreateWebviewPanel "infoPanel" "Information";
            SetWebviewHtml (panel_html actionId);
            DisposePanel]
         /\ spawned tr = [Exec (ts_command actionId scriptPath attributes)]
         /\ notifications tr = []
         /\ filter is_prompt tr = []
         /\ length tr = 4
         /\ (forall ev, In ev tr ->
             match ev with
             | ShowInformationMessage _ | ShowErrorMessage _
             | ConsoleInfo _ | ConsoleError _ => False
             | _ => True
             end))
  /\ occurs_in "CREATED" (panel_html "create-repo.sh")
  /\ panel_html "create-repo.sh" <> panel_html "add-secret.sh"
  /\ panel_html "create-repo.sh" <> panel_html "pipeline_generator.sh"
  /\ panel_html "add-secret.sh" <> panel_html "pipeline_generator.sh".
Proof.
  split; [| split; [reflexivity | split; [reflexivity |
             split; [discriminate | split; [| split]]]]].
  - intros actionId attributes stdout Hid Hrun.
    rewrite (js_dispatch actionId attributes Hid). now rewrite Hrun.
  - now exists "🆙 ", " REPO ...".
  - intros actionId scriptPath attributes stdout Hid Htruthy Hrun tr.
    subst tr.
    rewrite (ts_dispatch actionId scriptPath attributes Hid Htruthy), Hrun.
    repeat split.
    intros ev [<- | [<- | [<- | [<- | []]]]]; exact I.
  - split; [now exists "<h1>🆙 THE REPO HAS BEEN ",
                       " !!!</h1><br><p>You can close this tab now.</p>" |].
    repeat split; discriminate.
Qed.

Lemma completion_reporting_witness :
  (In "create-repo.sh" known_ids_js
   /\ @run_shell scenario_host
        (@js_command scenario_host "create-repo.sh"
           (JString "-a create -n repo-test -d /tmp/x"))
      = Exited "done")
  /\ @HangarScriptsJs.scriptSelector scenario_host (JString "create-repo.sh")
       (JString "-a create -n repo-test -d /tmp/x")
     = ([Exec "cd /ext/scripts/repositories/github ; ./create-repo.sh -a create -n repo-test -d /tmp/x";
         ConsoleInfo ("STDOUT" ++ LF ++ "done");
         ShowInformationMessage "🆙 CREATING REPO ..."], Returned tt)
  /\ (In "create-repo.sh" known_ids_ts
      /\ truthy (JString "-a create") = true
      /\ @run_shell scenario_host
           (ts_command "create-repo.sh" (JString "scripts") (JString "-a create"))
         = Exited "done")
  /\ filter is_panel_event
       (trace (@HangarScriptsTs.scriptSelector scenario_host
                 (JString "create-repo.sh") (JString "scripts")
                 (JString "-a create")))
     = [CreateWebviewPanel "infoPanel" "Information";
        SetWebviewHtml
          "<h1>🆙 THE REPO HAS BEEN CREATED !!!</h1><br><p>You can close this tab now.</p>";
        DisposePanel].
Proof.
  assert (H1 : In "create-repo.sh" known_ids_js) by (simpl; auto).
  assert (H2 : @run_shell scenario_host
                 (@js_command scenario_host "create-repo.sh"
                    (JString "-a create -n repo-test -d /tmp/x"))
               = Exited "done") by reflexivity.
  assert (H3 : In "create-repo.sh" known_ids_ts) by (simpl; auto).
  assert (H4 : truthy (JString "-a create") = true) by reflexivity.
  assert (H5 : @run_shell scenario_host
                 (ts_command "create-repo.sh" (JString "scripts")
                    (JString "-a create"))
               = Exited "done") by reflexivity.
  destruct (@completion_reporting scenario_host)
    as (Hjs & _ & _ & _ & _ & Hts & _).
  split; [exact (conj H1 H2) |].
  split; [exact (Hjs _ _ _ H1 H2) |].
  split; [exact (conj H3 (conj H4 H5)) |].
  exact (proj1 (Hts _ _ _ _ H3 H4 H5)).
Defined.

(** ** Reporting a failed run *)

Lemma append_assoc (a b c : string) : (a ++ b) ++ c = a ++ b ++ c.
Proof.
  induction a as [|x a IH]; simpl; [reflexivity | now rewrite IH].
Qed.

Lemma occurs_in_trans (s t u : string) :
  occurs_in s t -> occurs_in t u -> occurs_in s u.
Proof.
  intros (b1 & a1 & ->) (b2 & a2 & ->).
  exists (b2 ++ b1), (a1 ++ a2).
  now rewrite !append_assoc.
Qed.

Lemma occurs_in_Error_toString (name message : string) :
  occurs_in message (Error_toString name message).
Proof.
  unfold Error_toString. destruct (name =? "").
  - apply occurs_in_self.
  - destruct (message =? "") eqn:E.
    + apply String.eqb_eq in E as ->. apply occurs_in_empty.
    + rewrite <- append_assoc. apply occurs_in_suffix.
Qed.

Lemma occurs_in_template_exn (error : jsexn) :
  occurs_in (raw_text error) (template_exn error).
Proof.
  destruct error as [n m | t]; simpl.
  - apply occurs_in_Error_toString.
  - apply occurs_in_self.
Qed.

(** C6: when the spawned command fails, with an error [error], a dispatch
    of a mapped id spawns that one command only, logs the error text and
    shows an error notification that contains it. The compiled variant logs
    the [Error] it has wrapped the failure in and shows its rendering; the
    TypeScript variant logs and shows "Error executing script: " followed
    by the text. *)
Theorem process_failure_reported {host : Host} :
  (forall (actionId : string) (attributes : jsval) (error : jsexn),
      In actionId known_ids_js ->
      run_shell (js_command actionId attributes) = Failed error ->
      let wrapped := new_Error (template_exn error) in
      HangarScriptsJs.scriptSelector (JString actionId) attributes
      = ([Exec (js_command actionId attributes);
          ConsoleError (LogValue wrapped);
          ShowErrorMessage (template_exn wrapped)], Returned tt)
      /\ occurs_in (raw_text error) (raw_text wrapped)
      /\ occurs_in (raw_text error) (template_exn wrapped))
  /\ (forall (actionId : string) (scriptPath attributes : jsval)
        (error : jsexn),
         In actionId known_ids_ts ->
         truthy attributes = true ->
         run_shell (ts_command actionId scriptPath attributes) = Failed error ->
         let text := "Error executing script: " ++ raw_text error in
         HangarScriptsTs.scriptSelector (JString actionId) scriptPath
           attributes
         = ([CreateWebviewPanel "infoPanel" "Information";
             SetWebviewHtml (panel_html actionId);
             DisposePanel;
             Exec (ts_command actionId scriptPath attributes);
             ConsoleError (LogText text);
             ShowErrorMessage text], Returned tt)
         /\ occurs_in (raw_text error) text).
Proof.
  split.
  - intros actionId attributes error Hid Hrun wrapped.
    rewrite (js_dispatch actionId attributes Hid), Hrun.
    split; [reflexivity |].
    split; [apply occurs_in_template_exn |].
    apply occurs_in_trans with (t := template_exn error).
    + apply occurs_in_template_exn.
    + apply (occurs_in_Error_toString "Error").
  - intros actionId scriptPath attributes error Hid Htruthy Hrun text.
    rewrite (ts_dispatch actionId scriptPath attributes Hid Htruthy), Hrun.
    split; [reflexivity | apply occurs_in_suffix].
Qed.

Lemma process_failure_reported_witness :
  (In "pipeline_generator.sh" known_ids_js
   /\ @run_shell scenario_host
        (@js_command scenario_host "pipeline_generator.sh" (JString "--fail"))
      = Failed
          (ErrorObject "Error"
             "Command failed: cd /ext/scripts/pipelines/github ; ./pipeline_generator.sh --fail"))
  /\ @HangarScriptsJs.scriptSelector scenario_host
       (JString "pipeline_generator.sh") (JString "--fail")
     = ([Exec "cd /ext/scripts/pipelines/github ; ./pipeline_generator.sh --fail";
         ConsoleError
           (LogValue
              (ErrorObject "Error"
                 "Error: Command failed: cd /ext/scripts/pipelines/github ; ./pipeline_generator.sh --fail"));
         ShowErrorMessage
           "Error: Error: Command failed: cd /ext/scripts/pipelines/github ; ./pipeline_generator.sh --fail"],
        Returned tt)
  /\ (In "add-secret.sh" known_ids_ts
      /\ truthy (JString "--fail") = true
      /\ @run_shell scenario_host
           (ts_command "add-secret.sh" (JString "scripts") (JString "--fail"))
         = Failed
             (ErrorObject "Error" "Command failed: cd scripts ; ./add-secret.sh --fail"))
  /\ @HangarScriptsTs.scriptSelector scenario_host (JString "add-secret.sh")
       (JString "scripts") (JString "--fail")
     = ([CreateWebviewPanel "infoPanel" "Information";
         SetWebviewHtml
           "<h1>⏩ THE SECRET HAS BEEN ADDED !!!</h1><br><p>You can close this tab now.</p>";
         DisposePanel;
         Exec "cd scripts ; ./add-secret.sh --fail";
         ConsoleError
           (LogText
              "Error executing script: Command failed: cd scripts ; ./add-secret.sh --fail");
         ShowErrorMessage
           "Error executing script: Command failed: cd scripts ; ./add-secret.sh --fail"],
        Returned tt).
Proof.
  assert (H1 : In "pipeline_generator.sh" known_ids_js) by (simpl; auto).
  assert (H2 : @run_shell scenario_host
                 (@js_command scenario_host "pipeline_generator.sh"
                    (JString "--fail"))
               = Failed
                   (ErrorObject "Error"
                      "Command failed: cd /ext/scripts/pipelines/github ; ./pipeline_generator.sh --fail"))
    by reflexivity.
  assert (H3 : In "add-secret.sh" known_ids_ts) by (simpl; auto).
  assert (H4 : truthy (JString "--fail") = true) by reflexivity.
  assert (H5 : @run_shell scenario_host
                 (ts_command "add-secret.sh" (JString "scripts")
                    (JString "--fail"))
               = Failed
                   (ErrorObject "Error"
                      "Command failed: cd scripts ; ./add-secret.sh --fail"))
    by reflexivity.
  destruct (@process_failure_reported scenario_host) as (Hjs & Hts).
  split; [exact (conj H1 H2) |].
  split; [exact (proj1 (Hjs _ _ _ H1 H2)) |].
  split; [exact (conj H3 (conj H4 H5)) |].
  exact (proj1 (Hts _ _ _ _ H3 H4 H5)).
Defined.

(** ** A dismissed prompt *)

Lemma trace_after_emit {A : Type} (ev : event) (m : Eff A) :
  trace (emit ev ;; m) = ev :: trace m.
Proof. destruct m as [t [a | e]]; reflexivity. Qed.

(** C9: when the input box is dismissed (it resolves to [undefined]), the
    run handler still calls the dispatcher, with [undefined] as attributes;
    the compiled dispatcher, for a mapped id, then interpolates it and
    spawns the script with the argument text "undefined". *)
Theorem dismissed_prompt_dispatched {host : Host}
    (provider : RadioButtonDataProvider) (radioButton : RadioButton) :
  filter is_checked (radioButtons provider) = [radioButton] ->
  In (id radioButton) known_ids_js ->
  (forall selector : jsval -> jsval -> Eff unit,
      runScripts selector provider JUndefined
      = (emit (ShowInputBox attributes_prompt) ;;
         selector (JString (id radioButton)) JUndefined))
  /\ spawned
       (trace (HangarScriptsJs.scriptSelector (JString (id radioButton))
                 JUndefined))
     = [Exec ("cd "
                ++ HangarScriptsJs.getScriptRelativePath
                     (category (id radioButton))
                ++ " ; ./" ++ id radioButton ++ " undefined")]
  /\ spawned (trace (runScriptsJs provider JUndefined))
     = [Exec ("cd "
                ++ HangarScriptsJs.getScriptRelativePath
                     (category (id radioButton))
                ++ " ; ./" ++ id radioButton ++ " undefined")].
Proof.
  intros Hone Hid.
  assert (Hgate : forall selector : jsval -> jsval -> Eff unit,
             runScripts selector provider JUndefined
             = (emit (ShowInputBox attributes_prompt) ;;
                selector (JString (id radioButton)) JUndefined))
    by (intros selector; now rewrite runScripts_cases, Hone).
  split; [exact Hgate |].
  split.
  - exact (js_dispatch_spawned (id radioButton) JUndefined Hid).
  - unfold runScriptsJs. rewrite Hgate, trace_after_emit.
    exact (js_dispatch_spawned (id radioButton) JUndefined Hid).
Qed.

Lemma dismissed_prompt_dispatched_witness :
  (filter is_checked
     (radioButtons (toggle "pipeline_generator.sh" createRadioButtonDataProvider))
   = [ {| button := {| id := "pipeline_generator.sh";
                       label := "⏩ Pipeline generator (pipelines/github)" |};
          checkboxState := Checked |} ]
   /\ In "pipeline_generator.sh" known_ids_js)
  /\ spawned
       (trace (@runScriptsJs scenario_host
                 (toggle "pipeline_generator.sh" createRadioButtonDataProvider)
                 JUndefined))
     = [Exec "cd /ext/scripts/pipelines/github ; ./pipeline_generator.sh undefined"].
Proof.
  assert (H1 : filter is_checked
                 (radioButtons
                    (toggle "pipeline_generator.sh"
                       createRadioButtonDataProvider))
               = [ {| button := {| id := "pipeline_generator.sh";
                                   label := "⏩ Pipeline generator (pipelines/github)" |};
                      checkboxState := Checked |} ]) by reflexivity.
  assert (H2 : In "pipeline_generator.sh" known_ids_js) by (simpl; auto).
  split; [exact (conj H1 H2) |].
  exact (proj2 (proj2 (@dismissed_prompt_dispatched scenario_host _ _ H1 H2))).
Defined.

(** ** Toggling *)

Lemma flip_flip (state : TreeItemCheckboxState) : flip (flip state) = state.
Proof. now destruct state. Qed.

Lemma toggle_in_twice (i : string) (items : list RadioButton) :
  toggle_in i (toggle_in i items) = items.
Proof.
  induction items as [|rb items IH]; simpl; [reflexivity |].
  destruct (id rb =? i) eqn:E; simpl; rewrite E.
  - rewrite flip_flip. now destruct rb.
  - now rewrite IH.
Qed.

Lemma toggle_in_unknown (i : string) (items : list RadioButton) :
  ~ In i (map (fun rb : RadioButton => id rb) items) ->
  toggle_in i items = items.
Proof.
  induction items as [|rb items IH]; simpl; intros H; [reflexivity |].
  destruct (id rb =? i) eqn:E.
  - apply String.eqb_eq in E. exfalso. apply H. now left.
  - rewrite IH; [reflexivity |]. intros Hin. apply H. now right.
Qed.

Lemma toggle_in_known (i : string) (items : list RadioButton) :
  In i (map (fun rb : RadioButton => id rb) items) ->
  toggle_in i items <> items.
Proof.
  induction items as [|rb items IH]; simpl; intros H; [contradiction |].
  destruct (id rb =? i) eqn:E.
  - intros Heq. injection Heq as Heq.
    destruct rb as [b [|]]; simpl in Heq; discriminate.
  - destruct H as [H | H].
    + apply String.eqb_neq in E. contradiction.
    + intros Heq. injection Heq as Heq. now apply IH.
Qed.

(** A single toggle of a catalogued id does change the model. *)
Lemma toggle_known (i : string) (model : RadioButtonDataProvider) :
  In i (map (fun rb : RadioButton => id rb) (radioButtons model)) ->
  toggle i model <> model.
Proof.
  intros Hin Heq. apply (toggle_in_known i (radioButtons model) Hin).
  now rewrite <- Heq at 2.
Qed.

(** C10: toggling the same id twice gives back the model as it was, hence
    the checked state of every Action, whatever the id and the starting
    states; toggling an id that no Action has leaves the model as it is. *)
Theorem toggle_twice (i : string) (model : RadioButtonDataProvider) :
  toggle i (toggle i model) = model
  /\ (~ In i (map (fun rb : RadioButton => id rb) (radioButtons model)) ->
      toggle i model = model).
Proof.
  destruct model as [items rl rc dl dc]. unfold toggle; simpl. split.
  - now rewrite toggle_in_twice.
  - intros H. now rewrite toggle_in_unknown.
Qed.

Lemma toggle_twice_witness :
  ~ In "nonexistent.sh"
      (map (fun rb : RadioButton => id rb)
         (radioButtons createRadioButtonDataProvider))
  /\ toggle "nonexistent.sh" createRadioButtonDataProvider
     = createRadioButtonDataProvider
  /\ toggle "create-repo.sh"
       (toggle "create-repo.sh" createRadioButtonDataProvider)
     = createRadioButtonDataProvider.
Proof.
  assert (H : ~ In "nonexistent.sh"
                (map (fun rb : RadioButton => id rb)
                   (radioButtons createRadioButtonDataProvider)))
    by (simpl; intuition discriminate).
  split; [exact H |].
  split.
  - exact (proj2 (toggle_twice "nonexistent.sh" createRadioButtonDataProvider) H).
  - exact (proj1 (toggle_twice "create-repo.sh" createRadioButtonDataProvider)).
Defined.

Example toggle_checks :
  map is_checked
    (radioButtons (toggle "create-repo.sh" createRadioButtonDataProvider))
  = [true; false].
Proof. reflexivity. Qed.

(** ** Every way a dispatch can go *)

Lemma ts_falsy_attributes {host : Host} (actionId : string)
    (scriptPath attributes : jsval) :
  In actionId known_ids_ts ->
  truthy attributes = false ->
  HangarScriptsTs.scriptSelector (JString actionId) scriptPath attributes
  = ([ShowErrorMessage "🛑 Required attributes missing"], Returned tt).
Proof.
  intros Hid Hfalsy.
  unfold HangarScriptsTs.scriptSelector, HangarScriptsTs.createRepoSh,
    HangarScriptsTs.addSecretSh, HangarScriptsTs.pipelineGeneratorSh.
  destruct Hid as [<- | [<- | [<- | []]]]; simpl strict_eq; cbv iota;
    now rewrite Hfalsy.
Qed.

Lemma mapped_or_not (ids : list string) (v : jsval) :
  mapped_in ids v
  \/ (~ mapped_in ids v
      /\ (forall s, v = JString s -> ~ In s ids)).
Proof.
  destruct v as [|s].
  - right. split.
    + intros (s & H & _). discriminate.
    + intros s H. discriminate.
  - destruct (in_dec string_dec s ids) as [Hin | Hout].
    + left. now exists s.
    + right. split.
      * intros (s' & H & Hin). injection H as ->. contradiction.
      * intros s' H. injection H as ->. exact Hout.
Qed.

Lemma ts_unmapped {host : Host} (scriptId scriptPath attributes : jsval) :
  ~ mapped_in known_ids_ts scriptId ->
  HangarScriptsTs.scriptSelector scriptId scriptPath attributes
  = ([ShowErrorMessage
        ("🛑 No script found for radio button ID: " ++ template scriptId)],
     Returned tt).
Proof.
  intros Hun. destruct scriptId as [|s]; [reflexivity |].
  apply ts_unknown_action. intros Hin. apply Hun. now exists s.
Qed.

Lemma js_unmapped {host : Host} (radioButtonId attributes : jsval) :
  ~ mapped_in known_ids_js radioButtonId ->
  HangarScriptsJs.scriptSelector radioButtonId attributes
  = ([ShowErrorMessage
        ("🛑 No script found for radio button ID: " ++ template radioButtonId)],
     Returned tt).
Proof.
  intros Hun. destruct radioButtonId as [|s]; [reflexivity |].
  apply js_unknown_action. intros Hin. apply Hun. now exists s.
Qed.

Lemma mapped_in_string (ids : list string) (s : string) :
  mapped_in ids (JString s) <-> In s ids.
Proof.
  split.
  - intros (s' & H & Hin). now injection H as ->.
  - intros Hin. now exists s.
Qed.

(** ** Failures never escape the dispatcher *)

Lemma ts_returns {host : Host} (scriptId scriptPath attributes : jsval) :
  snd (HangarScriptsTs.scriptSelector scriptId scriptPath attributes)
  = Returned tt.
Proof.
  destruct (mapped_or_not known_ids_ts scriptId) as [(s & -> & Hin) | [Hun _]].
  - destruct (truthy attributes) eqn:T.
    + rewrite (ts_dispatch s scriptPath attributes Hin T). reflexivity.
    + rewrite (ts_falsy_attributes s scriptPath attributes Hin T). reflexivity.
  - now rewrite (ts_unmapped scriptId scriptPath attributes Hun).
Qed.

Lemma js_returns {host : Host} (radioButtonId attributes : jsval) :
  snd (HangarScriptsJs.scriptSelector radioButtonId attributes) = Returned tt.
Proof.
  destruct (mapped_or_not known_ids_js radioButtonId)
    as [(s & -> & Hin) | [Hun _]].
  - rewrite (js_dispatch s attributes Hin).
    now destruct (run_shell (js_command s attributes)).
  - now rewrite (js_unmapped radioButtonId attributes Hun).
Qed.

Lemma outcome_after_emit {A : Type} (ev : event) (m : Eff A) :
  snd (emit ev ;; m) = snd m.
Proof. destruct m as [t [a | e]]; reflexivity. Qed.

Lemma runScripts_returns (selector : jsval -> jsval -> Eff unit)
    (provider : RadioButtonDataProvider) (answer : jsval) :
  (forall first second, snd (selector first second) = Returned tt) ->
  snd (runScripts selector provider answer) = Returned tt.
Proof.
  intros Hsel. rewrite runScripts_cases.
  destruct (filter is_checked (radioButtons provider)) as [|rb [|rb' rest]];
    try reflexivity.
  rewrite outcome_after_emit. apply Hsel.
Qed.

(** X1: no call of [scriptSelector], in either variant and whatever its
    arguments (an id that is not a string included) and whatever the shell
    does, ends by throwing: a failure of the command is always caught and
    reported. The same holds for the run handler with either dispatcher. *)
Theorem dispatch_never_throws {host : Host} :
  (forall scriptId scriptPath attributes : jsval,
      snd (HangarScriptsTs.scriptSelector scriptId scriptPath attributes)
      = Returned tt)
  /\ (forall radioButtonId attributes : jsval,
         snd (HangarScriptsJs.scriptSelector radioButtonId attributes)
         = Returned tt)
  /\ (forall (provider : RadioButtonDataProvider) (answer : jsval),
         snd (runScriptsTs provider answer) = Returned tt
         /\ snd (runScriptsJs provider answer) = Returned tt).
Proof.
  split; [exact ts_returns | split; [exact js_returns |]].
  intros provider answer. split.
  - apply runScripts_returns. intros first second. apply ts_returns.
  - apply runScripts_returns. intros first second. apply js_returns.
Qed.

(** ** When a process is spawned *)

Lemma ts_spawned_cases {host : Host} (scriptId scriptPath attributes : jsval) :
  (mapped_in known_ids_ts scriptId /\ truthy attributes = true
   /\ exists s,
       scriptId = JString s
       /\ spawned
            (trace (HangarScriptsTs.scriptSelector scriptId scriptPath
                      attributes))
          = [Exec (ts_command s scriptPath attributes)])
  \/ (~ (mapped_in known_ids_ts scriptId /\ truthy attributes = true)
      /\ spawned
           (trace (HangarScriptsTs.scriptSelector scriptId scriptPath
                     attributes)) = []).
Proof.
  destruct (mapped_or_not known_ids_ts scriptId) as [Hm | [Hun _]].
  - destruct (truthy attributes) eqn:T.
    + left. split; [exact Hm | split; [reflexivity |]].
      destruct Hm as (s & -> & Hin). exists s. split; [reflexivity |].
      exact (ts_dispatch_spawned s scriptPath attributes Hin T).
    + right. split; [intros [_ H]; discriminate |].
      destruct Hm as (s & -> & Hin).
      now rewrite (ts_falsy_attributes s scriptPath attributes Hin T).
  - right. split; [intros [H _]; contradiction |].
    now rewrite (ts_unmapped scriptId scriptPath attributes Hun).
Qed.

Lemma js_spawned_cases {host : Host} (radioButtonId attributes : jsval) :
  (exists s,
      radioButtonId = JString s /\ In s known_ids_js
      /\ spawned
           (trace (HangarScriptsJs.scriptSelector radioButtonId attributes))
         = [Exec (js_command s attributes)])
  \/ (~ mapped_in known_ids_js radioButtonId
      /\ spawned
           (trace (HangarScriptsJs.scriptSelector radioButtonId attributes))
         = []).
Proof.
  destruct (mapped_or_not known_ids_js radioButtonId)
    as [(s & -> & Hin) | [Hun _]].
  - left. exists s. split; [reflexivity | split; [exact Hin |]].
    exact (js_dispatch_spawned s attributes Hin).
  - right. split; [exact Hun |].
    now rewrite (js_unmapped radioButtonId attributes Hun).
Qed.

(** X2: the TypeScript dispatcher spawns a process exactly when the id is
    one of its three mapped ids and the attributes are truthy (a non-empty
    string); it never spawns more than one process per call. *)
Theorem ts_spawns_iff {host : Host} (scriptId scriptPath attributes : jsval) :
  (spawned
     (trace (HangarScriptsTs.scriptSelector scriptId scriptPath attributes))
   <> []
   <-> mapped_in known_ids_ts scriptId /\ truthy attributes = true)
  /\ length
       (spawned
          (trace (HangarScriptsTs.scriptSelector scriptId scriptPath
                    attributes))) <= 1.
Proof.
  destruct (ts_spawned_cases scriptId scriptPath attributes)
    as [(Hm & T & s & _ & ->) | [Hno ->]].
  - split; [| apply le_n]. split; [auto | discriminate].
  - split; [| apply Nat.le_0_l]. split; [congruence | contradiction].
Qed.

Lemma ts_spawns_iff_witness :
  (mapped_in known_ids_ts (JString "add-secret.sh")
   /\ truthy (JString "-n token") = true)
  /\ spawned
       (trace (@HangarScriptsTs.scriptSelector scenario_host
                 (JString "add-secret.sh") (JString "scripts")
                 (JString "-n token"))) <> [].
Proof.
  assert (H : mapped_in known_ids_ts (JString "add-secret.sh")
              /\ truthy (JString "-n token") = true).
  { split; [| reflexivity]. exists "add-secret.sh". simpl. auto. }
  split; [exact H |].
  exact (proj2 (proj1 (@ts_spawns_iff scenario_host (JString "add-secret.sh")
                         (JString "scripts") (JString "-n token"))) H).
Defined.

(** X3: the compiled dispatcher spawns a process exactly when the id is
    one of its two mapped ids, whatever the attributes are (empty and
    [undefined] included); it never spawns more than one process per
    call. *)
Theorem js_spawns_iff {host : Host} (radioButtonId attributes : jsval) :
  (spawned (trace (HangarScriptsJs.scriptSelector radioButtonId attributes))
   <> []
   <-> mapped_in known_ids_js radioButtonId)
  /\ length
       (spawned
          (trace (HangarScriptsJs.scriptSelector radioButtonId attributes)))
     <= 1.
Proof.
  destruct (js_spawned_cases radioButtonId attributes)
    as [(s & -> & Hin & ->) | [Hno ->]].
  - split; [| apply le_n]. split; [| discriminate].
    intros _. now exists s.
  - split; [| apply Nat.le_0_l]. split; [congruence | contradiction].
Qed.

Lemma js_spawns_iff_witness :
  mapped_in known_ids_js (JString "pipeline_generator.sh")
  /\ spawned
       (trace (@HangarScriptsJs.scriptSelector scenario_host
                 (JString "pipeline_generator.sh") JUndefined)) <> [].
Proof.
  assert (H : mapped_in known_ids_js (JString "pipeline_generator.sh"))
    by (exists "pipeline_generator.sh"; simpl; auto).
  split; [exact H |].
  exact (proj2 (proj1 (@js_spawns_iff scenario_host
                         (JString "pipeline_generator.sh") JUndefined)) H).
Defined.

(** ** What the user is shown *)

(** X4: every call of the compiled dispatcher ends with exactly one
    notification, shown after everything else; it is the informational one
    exactly when the id is mapped and the command exited with code 0, and
    an error notification otherwise. *)
Theorem js_one_notification {host : Host} (radioButtonId attributes : jsval) :
  exists before shown,
    trace (HangarScriptsJs.scriptSelector radioButtonId attributes)
    = (before ++ [shown])%list
    /\ notifications before = []
    /\ is_notification shown = true
    /\ ((exists message, shown = ShowInformationMessage message)
        <-> exists s stdout,
            radioButtonId = JString s /\ In s known_ids_js
            /\ run_shell (js_command s attributes) = Exited stdout).
Proof.
  destruct (mapped_or_not known_ids_js radioButtonId)
    as [(s & -> & Hin) | [Hun Hall]].
  - rewrite (js_dispatch s attributes Hin).
    destruct (run_shell (js_command s attributes)) as [out | error] eqn:E.
    + exists [Exec (js_command s attributes);
              ConsoleInfo ("STDOUT" ++ LF ++ out)],
             (ShowInformationMessage (done_message s)).
      repeat split.
      * intros _. exists s, out. auto.
      * intros _. now eexists.
    + exists [Exec (js_command s attributes);
              ConsoleError (LogValue (new_Error (template_exn error)))],
             (ShowErrorMessage (template_exn (new_Error (template_exn error)))).
      repeat split.
      * intros (message & H). discriminate.
      * intros (s' & out & H & _ & Hrun). injection H as <-.
        rewrite E in Hrun. discriminate.
  - rewrite (js_unmapped radioButtonId attributes Hun).
    exists [], (ShowErrorMessage
                  ("🛑 No script found for radio button ID: "
                     ++ template radioButtonId)).
    repeat split.
    + intros (message & H). discriminate.
    + intros (s & out & H & Hin & _). exfalso. exact (Hall s H Hin).
Qed.

Lemma js_one_notification_witness :
  (exists s stdout,
      JString "create-repo.sh" = JString s /\ In s known_ids_js
      /\ @run_shell scenario_host
           (@js_command scenario_host s (JString "")) = Exited stdout)
  /\ exists before shown,
      trace (@HangarScriptsJs.scriptSelector scenario_host
               (JString "create-repo.sh") (JString ""))
      = (before ++ [shown])%list
      /\ exists message, shown = ShowInformationMessage message.
Proof.
  assert (H : exists s stdout,
             JString "create-repo.sh" = JString s /\ In s known_ids_js
             /\ @run_shell scenario_host
                  (@js_command scenario_host s (JString "")) = Exited stdout).
  { exists "create-repo.sh", "done". repeat split. simpl. auto. }
  split; [exact H |].
  destruct (@js_one_notification scenario_host (JString "create-repo.sh")
              (JString "")) as (before & shown & Htr & _ & _ & Hinfo).
  exists before, shown. split; [exact Htr | exact (proj2 Hinfo H)].
Defined.

(** X5: the TypeScript dispatcher shows no informational notification
    ever, and at most one error notification per call; it shows no
    notification at all exactly when the id is mapped, the attributes are
    truthy and the command exited with code 0. *)
Theorem ts_silent_iff_success {host : Host}
    (scriptId scriptPath attributes : jsval) :
  let shown :=
    notifications
      (trace (HangarScriptsTs.scriptSelector scriptId scriptPath attributes))
  in
  (shown = []
   <-> exists s stdout,
       scriptId = JString s /\ In s known_ids_ts
       /\ truthy attributes = true
       /\ run_shell (ts_command s scriptPath attributes) = Exited stdout)
  /\ (shown = [] \/ exists message, shown = [ShowErrorMessage message]).
Proof.
  intros shown. subst shown.
  destruct (mapped_or_not known_ids_ts scriptId)
    as [(s & -> & Hin) | [Hun Hall]].
  - destruct (truthy attributes) eqn:T.
    + rewrite (ts_dispatch s scriptPath attributes Hin T).
      destruct (run_shell (ts_command s scriptPath attributes))
        as [out | error] eqn:E.
      * split; [| now left]. split; [| reflexivity].
        intros _. exists s, out. auto.
      * split; [| right; now eexists]. split; [discriminate |].
        intros (s' & out & H & _ & _ & Hrun). injection H as <-.
        rewrite E in Hrun. discriminate.
    + rewrite (ts_falsy_attributes s scriptPath attributes Hin T).
      split; [| right; now eexists]. split; [discriminate |].
      intros (s' & out & _ & _ & H & _). discriminate.
  - rewrite (ts_unmapped scriptId scriptPath attributes Hun).
    split; [| right; now eexists]. split; [discriminate |].
    intros (s & out & H & Hin & _). exfalso. exact (Hall s H Hin).
Qed.

Lemma ts_silent_iff_success_witness :
  (exists s stdout,
      JString "create-repo.sh" = JString s /\ In s known_ids_ts
      /\ truthy (JString "-a create") = true
      /\ @run_shell scenario_host
           (ts_command s (JString "scripts") (JString "-a create"))
         = Exited stdout)
  /\ notifications
       (trace (@HangarScriptsTs.scriptSelector scenario_host
                 (JString "create-repo.sh") (JString "scripts")
                 (JString "-a create"))) = [].
Proof.
  assert (H : exists s stdout,
             JString "create-repo.sh" = JString s /\ In s known_ids_ts
             /\ truthy (JString "-a create") = true
             /\ @run_shell scenario_host
                  (ts_command s (JString "scripts") (JString "-a create"))
                = Exited stdout).
  { exists "create-repo.sh", "done". repeat split. simpl. auto. }
  split; [exact H |].
  exact (proj2 (proj1 (@ts_silent_iff_success scenario_host
                         (JString "create-repo.sh") (JString "scripts")
                         (JString "-a create"))) H).
Defined.

(** X6: in the TypeScript dispatcher the information tab goes with the
    spawn: a call that spawns the script has first created, filled and
    disposed the tab, before the command is run and whether the command
    then succeeds or fails; a call that spawns nothing opens no tab. *)
Theorem ts_panel_precedes_spawn {host : Host}
    (scriptId scriptPath attributes : jsval) :
  let tr :=
    trace (HangarScriptsTs.scriptSelector scriptId scriptPath attributes) in
  (spawned tr <> [] ->
   exists s report,
     scriptId = JString s
     /\ tr = CreateWebviewPanel "infoPanel" "Information"
               :: SetWebviewHtml (panel_html s)
               :: DisposePanel
               :: Exec (ts_command s scriptPath attributes)
               :: report
     /\ filter is_panel_event report = []
     /\ spawned report = [])
  /\ (spawned tr = [] -> filter is_panel_event tr = []).
Proof.
  intros tr. subst tr.
  destruct (mapped_or_not known_ids_ts scriptId)
    as [(s & -> & Hin) | [Hun _]].
  - destruct (truthy attributes) eqn:T.
    + rewrite (ts_dispatch s scriptPath attributes Hin T).
      destruct (run_shell (ts_command s scriptPath attributes))
        as [out | error]; (split; [| discriminate]); intros _; exists s.
      * exists []. repeat split.
      * eexists. repeat split.
    + rewrite (ts_falsy_attributes s scriptPath attributes Hin T).
      split; [intros H; now contradiction H | reflexivity].
  - rewrite (ts_unmapped scriptId scriptPath attributes Hun).
    split; [intros H; now contradiction H | reflexivity].
Qed.

Lemma ts_panel_precedes_spawn_witness :
  spawned
    (trace (@HangarScriptsTs.scriptSelector scenario_host
              (JString "create-repo.sh") (JString "scripts")
              (JString "--fail"))) <> []
  /\ exists report,
      trace (@HangarScriptsTs.scriptSelector scenario_host
               (JString "create-repo.sh") (JString "scripts")
               (JString "--fail"))
      = CreateWebviewPanel "infoPanel" "Information"
          :: SetWebviewHtml
               "<h1>🆙 THE REPO HAS BEEN CREATED !!!</h1><br><p>You can close this tab now.</p>"
          :: DisposePanel
          :: Exec "cd scripts ; ./create-repo.sh --fail"
          :: report
      /\ report <> [].
Proof.
  assert (H : spawned
                (trace (@HangarScriptsTs.scriptSelector scenario_host
                          (JString "create-repo.sh") (JString "scripts")
                          (JString "--fail"))) <> []) by discriminate.
  split; [exact H |].
  destruct (proj1 (@ts_panel_precedes_spawn scenario_host
                     (JString "create-repo.sh") (JString "scripts")
                     (JString "--fail")) H)
    as (s & report & Hs & Htr & _ & _).
  injection Hs as <-.
  exists report. split; [exact Htr |].
  intros ->. discriminate Htr.
Defined.

(** ** The run handler with each dispatcher *)

Lemma handler_spawned (selector : jsval -> jsval -> Eff unit)
    (provider : RadioButtonDataProvider) (answer : jsval) :
  spawned (trace (runScripts selector provider answer))
  = match filter is_checked (radioButtons provider) with
    | [radioButton] =>
        spawned (trace (selector (JString (id radioButton)) answer))
    | _ => []
    end.
Proof.
  rewrite runScripts_cases.
  destruct (filter is_checked (radioButtons provider)) as [|rb [|rb' rest]];
    try reflexivity.
  now rewrite trace_after_emit.
Qed.

(** X7: the run handler wired to the TypeScript dispatcher spawns no
    process, whatever the items, their checked states and the answer to the
    prompt are (a mapped id is not needed for this). *)
Theorem ts_handler_spawns_nothing {host : Host}
    (provider : RadioButtonDataProvider) (answer : jsval) :
  spawned (trace (runScriptsTs provider answer)) = [].
Proof.
  unfold runScriptsTs. rewrite handler_spawned.
  destruct (filter is_checked (radioButtons provider)) as [|rb [|rb' rest]];
    try reflexivity.
  destruct (ts_spawned_cases (JString (id rb)) answer JUndefined)
    as [(_ & T & _) | [_ H]]; [discriminate | exact H].
Qed.

(** X8: the run handler wired to the compiled dispatcher spawns a process
    exactly when one item is checked and its id is one of the two mapped
    ids, whatever the answer to the prompt is; it never spawns more than
    one. *)
Theorem js_handler_spawns_iff {host : Host}
    (provider : RadioButtonDataProvider) (answer : jsval) :
  (spawned (trace (runScriptsJs provider answer)) <> []
   <-> exists radioButton,
       filter is_checked (radioButtons provider) = [radioButton]
       /\ In (id radioButton) known_ids_js)
  /\ length (spawned (trace (runScriptsJs provider answer))) <= 1.
Proof.
  unfold runScriptsJs. rewrite handler_spawned.
  destruct (filter is_checked (radioButtons provider)) as [|rb [|rb' rest]].
  - split; [| apply Nat.le_0_l]. split; [congruence |].
    intros (x & H & _). discriminate.
  - destruct (js_spawned_cases (JString (id rb)) answer)
      as [(s & Hs & Hin & ->) | [Hno ->]].
    + injection Hs as <-. split; [| apply le_n].
      split; [| discriminate]. intros _. now exists rb.
    + split; [| apply Nat.le_0_l]. split; [congruence |].
      intros (x & H & Hin). injection H as <-.
      exfalso. apply Hno. now exists (id rb).
  - split; [| apply Nat.le_0_l]. split; [congruence |].
    intros (x & H & _). discriminate.
Qed.

Lemma js_handler_spawns_iff_witness :
  (exists radioButton,
      filter is_checked
        (radioButtons (toggle "create-repo.sh" createRadioButtonDataProvider))
      = [radioButton]
      /\ In (id radioButton) known_ids_js)
  /\ spawned
       (trace (@runScriptsJs scenario_host
                 (toggle "create-repo.sh" createRadioButtonDataProvider)
                 (JString "-x"))) <> [].
Proof.
  assert (H : exists radioButton,
             filter is_checked
               (radioButtons
                  (toggle "create-repo.sh" createRadioButtonDataProvider))
             = [radioButton]
             /\ In (id radioButton) known_ids_js).
  { eexists. split; [reflexivity |]. simpl. auto. }
  split; [exact H |].
  exact (proj2 (proj1 (@js_handler_spawns_iff scenario_host
                         (toggle "create-repo.sh"
                            createRadioButtonDataProvider)
                         (JString "-x"))) H).
Defined.

(** X9: the ids the handler collects are those of the checked items, in
    the order of the items and one per checked item (two checked items with
    the same id count twice); collecting over two lists put end to end is
    collecting over each and putting the results end to end. *)
Theorem selected_ids_collected (items more : list RadioButton) :
  length (selectedScriptIds items) = length (filter is_checked items)
  /\ (forall i,
         In i (selectedScriptIds items)
         <-> exists radioButton,
             In radioButton items
             /\ checkboxState radioButton = Checked
             /\ id radioButton = i)
  /\ selectedScriptIds (items ++ more)
     = (selectedScriptIds items ++ selectedScriptIds more)%list.
Proof.
  rewrite !selectedScriptIds_checked. split; [| split].
  - apply length_map.
  - intros i. rewrite in_map_iff. split.
    + intros (rb & Hid & Hin). apply filter_In in Hin as [Hin Hc].
      exists rb. unfold is_checked in Hc.
      destruct (checkboxState rb); [discriminate | auto].
    + intros (rb & Hin & Hc & Hid). exists rb. split; [exact Hid |].
      apply filter_In. split; [exact Hin |].
      unfold is_checked. now rewrite Hc.
  - now rewrite filter_app, map_app.
Qed.

Lemma selected_ids_collected_witness :
  (exists radioButton,
      In radioButton
        (radioButtons (toggle "create-repo.sh" createRadioButtonDataProvider))
      /\ checkboxState radioButton = Checked
      /\ id radioButton = "create-repo.sh")
  /\ In "create-repo.sh"
       (selectedScriptIds
          (radioButtons
             (toggle "create-repo.sh" createRadioButtonDataProvider))).
Proof.
  assert (H : exists radioButton,
             In radioButton
               (radioButtons
                  (toggle "create-repo.sh" createRadioButtonDataProvider))
             /\ checkboxState radioButton = Checked
             /\ id radioButton = "create-repo.sh").
  { eexists. split; [left; reflexivity |]. split; reflexivity. }
  split; [exact H |].
  exact (proj2 (proj1 (proj2 (selected_ids_collected
                                (radioButtons
                                   (toggle "create-repo.sh"
                                      createRadioButtonDataProvider))
                                [])) "create-repo.sh") H).
Defined.

(** X10: every entry of the catalog built by
    [createRadioButtonDataProvider] has an id the compiled dispatcher maps;
    so, with the items of the extension in whatever checked states, a run
    spawns a process exactly when one item is checked, and the unknown-id
    branch of that dispatcher is not reached from the view. *)
Theorem catalog_always_dispatchable {host : Host}
    (provider : RadioButtonDataProvider) (answer : jsval) :
  map button (radioButtons provider)
  = map button (radioButtons createRadioButtonDataProvider) ->
  (forall radioButton,
      In radioButton (radioButtons provider) ->
      In (id radioButton) known_ids_js)
  /\ (spawned (trace (runScriptsJs provider answer)) <> []
      <-> length (filter is_checked (radioButtons provider)) = 1).
Proof.
  intros Hcat.
  assert (Hknown : forall rb, In rb (radioButtons provider) ->
                              In (id rb) known_ids_js).
  { intros rb Hin. apply (in_map button) in Hin. rewrite Hcat in Hin.
    destruct Hin as [<- | [<- | []]]; simpl; auto. }
  split; [exact Hknown |].
  unfold runScriptsJs. rewrite handler_spawned.
  destruct (filter is_checked (radioButtons provider))
    as [|rb [|rb' rest]] eqn:E; simpl length.
  - split; [congruence | discriminate].
  - assert (Hin : In rb (radioButtons provider)).
    { assert (H : In rb (filter is_checked (radioButtons provider)))
        by (rewrite E; now left).
      now apply filter_In in H. }
    rewrite (js_dispatch_spawned (id rb) answer (Hknown rb Hin)).
    split; [reflexivity | discriminate].
  - split; [congruence | discriminate].
Qed.

Lemma catalog_always_dispatchable_witness :
  map button
    (radioButtons (toggle "pipeline_generator.sh" createRadioButtonDataProvider))
  = map button (radioButtons createRadioButtonDataProvider)
  /\ (length
        (filter is_checked
           (radioButtons
              (toggle "pipeline_generator.sh" createRadioButtonDataProvider)))
      = 1
      -> spawned
           (trace (@runScriptsJs scenario_host
                     (toggle "pipeline_generator.sh"
                        createRadioButtonDataProvider)
                     (JString ""))) <> []).
Proof.
  assert (H : map button
                (radioButtons
                   (toggle "pipeline_generator.sh"
                      createRadioButtonDataProvider))
              = map button (radioButtons createRadioButtonDataProvider))
    by reflexivity.
  split; [exact H |].
  exact (proj2 (proj2 (@catalog_always_dispatchable scenario_host _
                         (JString "") H))).
Defined.

(** ** The text of a failure in the compiled variant *)

(** X11: in the compiled variant a failure is wrapped twice on its way to
    the user. When the command fails with a value whose string conversion
    is not empty, [executeScript] rejects with a new [Error] whose message
    is that conversion, and the dispatcher logs that error and shows
    "Error: " followed by the conversion. For an [Error] of name [n] and
    message [m], both not empty, the notification is thus "Error: n: m":
    "Error: Error: m" for a plain [Error]. *)
Theorem js_failure_wrapped_twice {host : Host} (actionId : string)
    (attributes : jsval) (error : jsexn) :
  In actionId known_ids_js ->
  template_exn error <> "" ->
  run_shell (js_command actionId attributes) = Failed error ->
  HangarScriptsJs.executeScript
    (JString (HangarScriptsJs.getScriptRelativePath (category actionId)))
    (JString actionId) attributes
  = ([Exec (js_command actionId attributes)],
     Thrown (new_Error (template_exn error)))
  /\ HangarScriptsJs.scriptSelector (JString actionId) attributes
     = ([Exec (js_command actionId attributes);
         ConsoleError (LogValue (new_Error (template_exn error)));
         ShowErrorMessage ("Error: " ++ template_exn error)], Returned tt)
  /\ (forall n m : string,
         error = ErrorObject n m -> n <> "" -> m <> "" ->
         template_exn error = n ++ ": " ++ m).
Proof.
  intros Hid Hmsg Hrun.
  assert (E1 : Error_toString "Error" (template_exn error)
               = "Error: " ++ template_exn error).
  { unfold Error_toString. apply String.eqb_neq in Hmsg. now rewrite Hmsg. }
  split; [| split].
  - unfold HangarScriptsJs.executeScript, exec.
    change ("cd "
              ++ template
                   (JString
                      (HangarScriptsJs.getScriptRelativePath
                         (category actionId)))
              ++ " ; ./" ++ template (JString actionId) ++ " "
              ++ template attributes)
      with (js_command actionId attributes).
    now rewrite Hrun.
  - rewrite (js_dispatch actionId attributes Hid), Hrun.
    unfold new_Error at 2. cbn [template_exn]. now rewrite E1.
  - intros n m -> Hn Hm. cbn [template_exn]. unfold Error_toString.
    apply String.eqb_neq in Hn, Hm. now rewrite Hn, Hm.
Qed.

Lemma js_failure_wrapped_twice_witness :
  (In "create-repo.sh" known_ids_js
   /\ template_exn
        (ErrorObject "RangeError [ERR_CHILD_PROCESS_STDIO_MAXBUFFER]"
           "stdout maxBuffer length exceeded") <> ""
   /\ run_shell
        (Host := {| run_shell := fun _ =>
                      Failed
                        (ErrorObject
                           "RangeError [ERR_CHILD_PROCESS_STDIO_MAXBUFFER]"
                           "stdout maxBuffer length exceeded");
                    path_resolve := posix_resolve;
                    asRelativePath := fun path _ => path;
                    __dirname := "/ext/out/src" |})
        "cd /ext/scripts/repositories/github ; ./create-repo.sh -a create"
      = Failed
          (ErrorObject "RangeError [ERR_CHILD_PROCESS_STDIO_MAXBUFFER]"
             "stdout maxBuffer length exceeded"))
  /\ HangarScriptsJs.scriptSelector
       (host := {| run_shell := fun _ =>
                     Failed
                       (ErrorObject
                          "RangeError [ERR_CHILD_PROCESS_STDIO_MAXBUFFER]"
                          "stdout maxBuffer length exceeded");
                   path_resolve := posix_resolve;
                   asRelativePath := fun path _ => path;
                   __dirname := "/ext/out/src" |})
       (JString "create-repo.sh") (JString "-a create")
     = ([Exec "cd /ext/scripts/repositories/github ; ./create-repo.sh -a create";
         ConsoleError
           (LogValue
              (ErrorObject "Error"
                 "RangeError [ERR_CHILD_PROCESS_STDIO_MAXBUFFER]: stdout maxBuffer length exceeded"));
         ShowErrorMessage
           "Error: RangeError [ERR_CHILD_PROCESS_STDIO_MAXBUFFER]: stdout maxBuffer length exceeded"],
        Returned tt).
Proof.
  assert (H1 : In "create-repo.sh" known_ids_js) by (simpl; auto).
  assert (H2 : template_exn
                 (ErrorObject "RangeError [ERR_CHILD_PROCESS_STDIO_MAXBUFFER]"
                    "stdout maxBuffer length exceeded") <> "")
    by discriminate.
  split; [split; [exact H1 | split; [exact H2 | reflexivity]] |].
  exact (proj1 (proj2
           (js_failure_wrapped_twice
              (host := {| run_shell := fun _ =>
                            Failed
                              (ErrorObject
                                 "RangeError [ERR_CHILD_PROCESS_STDIO_MAXBUFFER]"
                                 "stdout maxBuffer length exceeded");
                          path_resolve := posix_resolve;
                          asRelativePath := fun path _ => path;
                          __dirname := "/ext/out/src" |})
              "create-repo.sh" (JString "-a create") _ H1 H2 eq_refl))).
Defined.

(** ** How [executeScript] ends *)

(** X12: the two variants of [executeScript] end differently. The
    TypeScript one never throws, whatever the shell does. The compiled one
    resolves to the standard output of the command, as it is, exactly when
    the command exits with code 0, and rejects exactly when it fails. *)
Theorem executeScript_outcomes {host : Host} :
  (forall scriptName scriptPath scriptAttributes : jsval,
      snd (HangarScriptsTs.executeScript scriptName scriptPath
             scriptAttributes) = Returned tt)
  /\ (forall (scriptPath scriptName scriptAttributes : jsval)
        (stdout : string),
         snd (HangarScriptsJs.executeScript scriptPath scriptName
                scriptAttributes) = Returned stdout
         <-> run_shell
               ("cd " ++ template scriptPath ++ " ; ./"
                  ++ template scriptName ++ " " ++ template scriptAttributes)
             = Exited stdout)
  /\ (forall scriptPath scriptName scriptAttributes : jsval,
         (exists thrown,
             snd (HangarScriptsJs.executeScript scriptPath scriptName
                    scriptAttributes) = Thrown thrown)
         <-> exists error,
             run_shell
               ("cd " ++ template scriptPath ++ " ; ./"
                  ++ template scriptName ++ " " ++ template scriptAttributes)
             = Failed error).
Proof.
  split; [| split].
  - intros scriptName scriptPath scriptAttributes.
    unfold HangarScriptsTs.executeScript, exec.
    destruct (run_shell _) as [out | [n m | t]]; reflexivity.
  - intros scriptPath scriptName scriptAttributes stdout.
    unfold HangarScriptsJs.executeScript, exec.
    destruct (run_shell _) as [out | error]; cbn -[append template_exn].
    + split; intros H; injection H as ->; reflexivity.
    + split; discriminate.
  - intros scriptPath scriptName scriptAttributes.
    unfold HangarScriptsJs.executeScript, exec.
    destruct (run_shell _) as [out | error]; cbn -[append template_exn].
    + split; intros (x & H); discriminate.
    + split; intros _; eexists; reflexivity.
Qed.

Lemma executeScript_outcomes_witness :
  @run_shell scenario_host "cd /tmp ; ./create-repo.sh -x" = Exited "done"
  /\ snd (@HangarScriptsJs.executeScript scenario_host (JString "/tmp")
            (JString "create-repo.sh") (JString "-x"))
     = Returned "done".
Proof.
  assert (H : @run_shell scenario_host "cd /tmp ; ./create-repo.sh -x"
              = Exited "done") by reflexivity.
  split; [exact H |].
  exact (proj2 (proj1 (proj2 (@executeScript_outcomes scenario_host))
                  (JString "/tmp") (JString "create-repo.sh") (JString "-x")
                  "done") H).
Defined.

(** ** What the answer to the prompt changes *)

(** X13: with the TypeScript dispatcher, what the user answers to the
    prompt changes nothing: the run handler does the same for any two
    answers, whatever the items and their checked states are. *)
Theorem ts_handler_ignores_answer {host : Host}
    (provider : RadioButtonDataProvider) (answer answer' : jsval) :
  runScriptsTs provider answer = runScriptsTs provider answer'.
Proof.
  unfold runScriptsTs. rewrite !runScripts_cases.
  destruct (filter is_checked (radioButtons provider)) as [|rb [|rb' rest]];
    reflexivity.
Qed.

Lemma ts_no_prompt {host : Host} (scriptId scriptPath attributes : jsval) :
  filter is_prompt
    (trace (HangarScriptsTs.scriptSelector scriptId scriptPath attributes))
  = [].
Proof.
  destruct (mapped_or_not known_ids_ts scriptId)
    as [(s & -> & Hin) | [Hun _]].
  - destruct (truthy attributes) eqn:T.
    + rewrite (ts_dispatch s scriptPath attributes Hin T).
      now destruct (run_shell (ts_command s scriptPath attributes)).
    + now rewrite (ts_falsy_attributes s scriptPath attributes Hin T).
  - now rewrite (ts_unmapped scriptId scriptPath attributes Hun).
Qed.

Lemma js_no_prompt {host : Host} (radioButtonId attributes : jsval) :
  filter is_prompt
    (trace (HangarScriptsJs.scriptSelector radioButtonId attributes)) = [].
Proof.
  destruct (mapped_or_not known_ids_js radioButtonId)
    as [(s & -> & Hin) | [Hun _]].
  - rewrite (js_dispatch s attributes Hin).
    now destruct (run_shell (js_command s attributes)).
  - now rewrite (js_unmapped radioButtonId attributes Hun).
Qed.

Lemma handler_prompts (selector : jsval -> jsval -> Eff unit)
    (provider : RadioButtonDataProvider) (answer : jsval) :
  (forall first second, filter is_prompt (trace (selector first second)) = []) ->
  filter is_prompt (trace (runScripts selector provider answer))
  = if (length (filter is_checked (radioButtons provider)) =? 1)%nat
    then [ShowInputBox attributes_prompt] else [].
Proof.
  intros Hsel. rewrite runScripts_cases.
  destruct (filter is_checked (radioButtons provider)) as [|rb [|rb' rest]];
    try reflexivity.
  rewrite trace_after_emit. cbn [filter is_prompt length Nat.eqb].
  now rewrite Hsel.
Qed.

(** X14: a run asks for attributes once when exactly one item is checked,
    and never otherwise; neither dispatcher ever opens an input box
    itself. *)
Theorem handler_prompts_once {host : Host}
    (provider : RadioButtonDataProvider) (answer : jsval) :
  let expected :=
    if (length (filter is_checked (radioButtons provider)) =? 1)%nat
    then [ShowInputBox attributes_prompt] else [] in
  filter is_prompt (trace (runScriptsTs provider answer)) = expected
  /\ filter is_prompt (trace (runScriptsJs provider answer)) = expected
  /\ (forall scriptId scriptPath attributes : jsval,
         filter is_prompt
           (trace (HangarScriptsTs.scriptSelector scriptId scriptPath
                     attributes)) = [])
  /\ (forall radioButtonId attributes : jsval,
         filter is_prompt
           (trace (HangarScriptsJs.scriptSelector radioButtonId attributes))
         = []).
Proof.
  intros expected. subst expected. split; [| split; [| split]].
  - apply handler_prompts. intros first second. apply ts_no_prompt.
  - apply handler_prompts. intros first second. apply js_no_prompt.
  - exact ts_no_prompt.
  - exact js_no_prompt.
Qed.
